(** * attention-all-microbes: losses, callbacks, model bookkeeping and the
      train/validation split, embedded from the Python sources.

    Tensors of floating-point numbers are embedded as lists of real numbers
    (rank 1) and lists of rows (rank 2): every statement below is about the
    exact-arithmetic reading of the TensorFlow expressions.  Integer tensors
    and Python integers are [Z]; Python slices on them follow the Python
    rules for negative and out-of-range bounds. *)

From stdpp Require Import base list strings gmap.
From Stdlib Require Import Reals Lra Lia ZArith QArith Qround Permutation Ascii.

Open Scope R_scope.

(** ** Rank-1 and rank-2 tensors *)
Module Tensor.

Definition tensor1 := list R.
Definition tensor2 := list (list R).

Definition row (M : tensor2) (i : nat) : tensor1 := nth i M [].
Definition entry (M : tensor2) (i j : nat) : R := nth j (row M i) 0.

Definition has_shape (M : tensor2) (n m : nat) : Prop :=
  length M = n /\ Forall (fun r => length r = m) M.

(** The [n]-by-[m] tensor whose entry [(i, j)] is [g i j]. *)
Definition tab (n m : nat) (g : nat -> nat -> R) : tensor2 :=
  map (fun i => map (fun j => g i j) (seq 0 m)) (seq 0 n).

Fixpoint sum_list (l : list R) : R :=
  match l with
  | [] => 0
  | x :: l' => x + sum_list l'
  end.

(** [tf.reduce_sum] over every axis of a rank-2 tensor. *)
Definition reduce_sum (M : tensor2) : R := sum_list (map sum_list M).

(** Inner product of two rows (the contraction [tf.matmul] performs). *)
Fixpoint dot (a b : tensor1) : R :=
  match a, b with
  | x :: a', y :: b' => x * y + dot a' b'
  | _, _ => 0
  end.

Definition ncols (M : tensor2) : nat := length (hd [] M).

(** [tf.transpose] and [tf.matmul] on rank-2 tensors.  A list of rows
    cannot tell a [(0, d)] from a [(0, 0)] tensor, so the transpose of a
    tensor without columns has no rows. *)
Definition column (M : tensor2) (j : nat) : tensor1 := map (fun r => nth j r 0) M.

Definition transpose (M : tensor2) : tensor2 :=
  map (column M) (seq 0 (ncols M)).

Definition matmul (a b : tensor2) : tensor2 :=
  map (fun ra => map (fun j => dot ra (column b j)) (seq 0 (ncols b))) a.

(** [tf.matmul(a, tf.transpose(b))] in one step: entry [(i, j)] contracts
    row [i] of [a] with row [j] of [b], also when [b] has no columns
    (lemma [matmul_transpose] relates it to the two functions above). *)
Definition matmul_transpose_b (a b : tensor2) : tensor2 :=
  map (fun ra => map (fun rb => dot ra rb) b) a.

(** [tf.linalg.diag_part] of a square tensor. *)
Definition diag_part (M : tensor2) : tensor1 :=
  map (fun i => entry M i i) (seq 0 (length M)).

(** [tf.expand_dims(v, 1)]: shape [(n, 1)]; [tf.expand_dims(v, 0)]: shape
    [(1, n)]. *)
Definition expand_dims_1 (v : tensor1) : tensor2 := map (fun x => [x]) v.
Definition expand_dims_0 (v : tensor1) : tensor2 := [v].

(** Broadcasting of two rank-2 operands: an axis of extent 1 is stretched
    to the extent of the other operand. *)
Definition bdim (a b : nat) : nat := if Nat.eqb a 1 then b else a.

Definition stretch {A : Type} (d : A) (n : nat) (l : list A) : list A :=
  if Nat.eqb (length l) 1 then repeat (hd d l) n else l.

Fixpoint zip2 {A B C : Type} (f : A -> B -> C) (l : list A) (k : list B)
  : list C :=
  match l, k with
  | x :: l', y :: k' => f x y :: zip2 f l' k'
  | _, _ => []
  end.

Definition broadcast2 (f : R -> R -> R) (A B : tensor2) : tensor2 :=
  let n := bdim (length A) (length B) in
  let m := bdim (ncols A) (ncols B) in
  zip2 (zip2 f)
       (map (stretch 0 m) (stretch [] n A))
       (map (stretch 0 m) (stretch [] n B)).

(** Index into an axis that may have extent 1, and the shapes that
    broadcast together. *)
Definition clip (k i : nat) : nat := if Nat.eqb k 1 then 0%nat else i.
Definition compat (a b : nat) : Prop := a = b \/ a = 1%nat \/ b = 1%nat.

Definition tensor_add := broadcast2 Rplus.
Definition tensor_sub := broadcast2 Rminus.
Definition tensor_mul := broadcast2 Rmult.

(** A Python float combined with a tensor acts on every entry. *)
Definition map2d (f : R -> R) (M : tensor2) : tensor2 := map (map f) M.

(** [tf.linalg.band_part(M, num_lower, num_upper)]: entry [(i, j)] is kept
    when [(num_lower < 0 || i - j <= num_lower) &&
          (num_upper < 0 || j - i <= num_upper)], and set to 0 otherwise. *)
Definition in_band (num_lower num_upper : Z) (i j : nat) : bool :=
  ((num_lower <? 0)%Z || (Z.of_nat i - Z.of_nat j <=? num_lower)%Z) &&
  ((num_upper <? 0)%Z || (Z.of_nat j - Z.of_nat i <=? num_upper)%Z).

Fixpoint mapi_from {A B : Type} (k : nat) (f : nat -> A -> B) (l : list A)
  : list B :=
  match l with
  | [] => []
  | x :: l' => f k x :: mapi_from (S k) f l'
  end.

Definition band_part (M : tensor2) (num_lower num_upper : Z) : tensor2 :=
  mapi_from 0 (fun i r =>
    mapi_from 0 (fun j x => if in_band num_lower num_upper i j then x else 0) r)
    M.

End Tensor.

(** ** src/aam/losses.py *)
Module Losses.
Import Tensor.

(** [tf.cast(tf.equal(distances, 0.0), tf.float32)] on one entry. *)
Definition zero_mask (x : R) : R := if Req_dec_T x 0 then 1 else 0.

Definition _pairwise_distances (embeddings : tensor2) (squared : bool)
  : tensor2 :=
  let dot_product := matmul_transpose_b embeddings embeddings in
  let square_norm := diag_part dot_product in
  let distances :=
    tensor_add
      (tensor_sub (expand_dims_1 square_norm) (map2d (Rmult 2) dot_product))
      (expand_dims_0 square_norm) in
  let distances := map2d (fun x => Rmax x 0) distances in
  if negb squared then
    let mask := map2d zero_mask distances in
    let distances := tensor_add distances (map2d (fun x => x * 1e-16) mask) in
    let distances := map2d sqrt distances in
    let distances := tensor_mul distances (map2d (fun x => 1 - x) mask) in
    distances
  else distances.

(** Entry [(i, j)] of the result in terms of rows [i] and [j]. *)
Definition pd_sq (a b : tensor1) : R := Rmax (dot a a - 2 * dot a b + dot b b) 0.
Definition pd_entry (squared : bool) (a b : tensor1) : R :=
  if squared then pd_sq a b
  else sqrt (pd_sq a b + zero_mask (pd_sq a b) * 1e-16)
       * (1 - zero_mask (pd_sq a b)).

(** [math.comb]. *)
Fixpoint comb (n k : nat) : nat :=
  match k with
  | O => 1%nat
  | S k' =>
      match n with
      | O => 0%nat
      | S n' => (comb n' k' + comb n' k)%nat
      end
  end.

(** [pairwise_loss(batch_size)] is the closure [inner]. *)
Definition pairwise_loss (batch_size : nat) (y_true y_pred : tensor2) : R :=
  let y_true := map2d (fun x => x * x) y_true in
  let y_pred_dist := _pairwise_distances y_pred true in
  let difference := map2d (fun x => x * x) (tensor_sub y_true y_pred_dist) in
  let difference := band_part difference 0 (-1) in
  reduce_sum difference / INR (comb batch_size 2).

(** The quantities the description of the loss is phrased in: the squared
    Euclidean distance between two rows, and the index pairs [i <= j < b]
    of the upper triangle. *)
Fixpoint sq_euclid (a b : tensor1) : R :=
  match a, b with
  | x :: a', y :: b' => (x - y) * (x - y) + sq_euclid a' b'
  | _, _ => 0
  end.

Definition upper_pairs (b : nat) : list (nat * nat) :=
  flat_map (fun i => map (fun j => (i, j)) (seq i (b - i))) (seq 0 b).

Definition pair_term (y_true y_pred : tensor2) (p : nat * nat) : R :=
  let d := entry y_true (fst p) (snd p) * entry y_true (fst p) (snd p)
           - sq_euclid (row y_pred (fst p)) (row y_pred (snd p)) in
  d * d.


End Losses.

(** ** Python values shared by the modules below *)
Module Py.

Inductive exn : Type :=
  | KeyError (key : string)
  | TypeError (msg : string)
  | ZeroDivisionError
  | InvalidArgumentError (msg : string).

Inductive result (A : Type) : Type :=
  | Ok (a : A)
  | Raise (e : exn).
Arguments Ok {A} a.
Arguments Raise {A} e.

#[global] Instance result_ret : MRet result := fun A a => Ok a.
#[global] Instance result_bind : MBind result := fun A B f m =>
  match m with
  | Ok a => f a
  | Raise e => Raise e
  end.

(** A slice bound [i] on a sequence of length [len]: negative bounds count
    from the end, and every bound is clamped into [0, len]. *)
Definition norm_index (len i : Z) : Z :=
  if (i <? 0)%Z then Z.max (i + len) 0 else Z.min i len.

(** [l[start:stop]] with unit stride; [None] is an omitted bound. *)
Definition py_slice {A : Type} (start stop : option Z) (l : list A) : list A :=
  let len := Z.of_nat (length l) in
  let lo := match start with None => 0%Z | Some i => norm_index len i end in
  let hi := match stop with None => len | Some j => norm_index len j end in
  firstn (Z.to_nat (hi - lo)) (skipn (Z.to_nat lo) l).

(** [int(q)] on a rational: truncation toward zero. *)
Definition py_int (q : Q) : Z := Z.quot (Qnum q) (Z.pos (Qden q)).

(** [posixpath.join] of two components. *)
Definition starts_with_slash (s : string) : bool :=
  match s with
  | String c _ => Ascii.eqb c "/"%char
  | EmptyString => false
  end.

Fixpoint ends_with_slash (s : string) : bool :=
  match s with
  | EmptyString => false
  | String c EmptyString => Ascii.eqb c "/"%char
  | String _ s' => ends_with_slash s'
  end.

Definition os_path_join (a b : string) : string :=
  if starts_with_slash b then b
  else if String.eqb a EmptyString || ends_with_slash a then a +:+ b
  else a +:+ "/" +:+ b.

End Py.

(** ** src/sepsis/model.py *)
Module Model.
Import Py.

(** *** [AttentionRegression.train_step]: labels and class resampling *)

(** [tf.add(tf.cast(tf.greater(tokens, 0), tf.int64),
           tf.cast(token_mask, tf.int64))], one sample per row. *)
Definition token_label (token : Z) (mask : bool) : Z :=
  (Z.b2z (0 <? token) + Z.b2z mask)%Z.

Definition train_step_labels (tokens : list (list Z))
  (token_mask : list (list bool)) : list (list Z) :=
  Tensor.zip2 (Tensor.zip2 token_label) tokens token_mask.

Definition INT64_MIN : Z := (- 2 ^ 63)%Z.

(** [tf.reduce_sum] and [tf.reduce_max] on rank-1 [int64] tensors; the
    maximum of an empty tensor is the least [int64]. *)
Definition reduce_sum_int (l : list Z) : Z := fold_right Z.add 0%Z l.
Definition reduce_max_int (l : list Z) : Z := fold_right Z.max INT64_MIN l.

Definition max_added (labels : list (list Z)) : Z :=
  reduce_max_int
    (map (fun sample => reduce_sum_int (map (fun l => Z.b2z (l =? 1)%Z) sample))
         labels).

(** The closure [select_equal_class] of [train_step]; [m] is the captured
    [max_added].  It slices along the token axis, so the element type of
    [embeddings] (a row of logits) is left open. *)
Definition select_equal_class {E : Type} (m : Z)
  (inputs : list E * list Z) : list E * list Z :=
  let '(embeddings, labels) := inputs in
  let added_embeddings := py_slice (Some (- m)%Z) None embeddings in
  let added_labels := py_slice (Some (- m)%Z) None labels in
  let true_embeddings := py_slice None (Some m) embeddings in
  let true_labels := py_slice None (Some m) labels in
  (true_embeddings ++ added_embeddings, true_labels ++ added_labels).

(** [tf.map_fn(select_equal_class, [embeddings, labels])] with the labels
    and [max_added] computed as in [train_step]. *)
Definition train_step_resample {E : Type} (embeddings : list (list E))
  (tokens : list (list Z)) (token_mask : list (list bool))
  : list (list E * list Z) :=
  let labels := train_step_labels tokens token_mask in
  let m := max_added labels in
  map (select_equal_class m) (Tensor.zip2 pair embeddings labels).

(** *** [AttentionRegression.mean_absolute_error] *)

Inductive dtype : Type := float32 | int32 | int64.

Definition dtype_eqb (a b : dtype) : bool :=
  match a, b with
  | float32, float32 | int32, int32 | int64, int64 => true
  | _, _ => false
  end.

(** A scalar integer tensor with its dtype. *)
Record int_scalar : Type := IntScalar { is_dtype : dtype; is_val : Z }.

(** [a + b] on integer tensors: TensorFlow does not promote dtypes, the
    [AddV2] kernel rejects operands of different dtypes. *)
Definition tf_add_int (a b : int_scalar) : result int_scalar :=
  if dtype_eqb (is_dtype a) (is_dtype b)
  then Ok (IntScalar (is_dtype a) (is_val a + is_val b))
  else Raise (InvalidArgumentError "cannot compute AddV2: operand dtypes differ").

(** The result of [tf.squeeze] on a tensor of shape [(B, 1)] or [(B,)]:
    every axis of extent 1 is removed, so one sample leaves a scalar. *)
Inductive squeezed : Type :=
  | Scalar (x : R)
  | Vector (v : list R).

Definition tf_squeeze (t : list R) : squeezed :=
  match t with
  | [x] => Scalar x
  | _ => Vector t
  end.

Definition squeezed_map (f : R -> R) (t : squeezed) : squeezed :=
  match t with
  | Scalar x => Scalar (f x)
  | Vector v => Vector (map f v)
  end.

Definition squeezed_sub (a b : squeezed) : squeezed :=
  match a, b with
  | Scalar x, Scalar y => Scalar (x - y)
  | Scalar x, Vector v => Vector (map (fun y => x - y) v)
  | Vector u, Scalar y => Vector (map (fun x => x - y) u)
  | Vector u, Vector v => Vector (Tensor.zip2 Rminus u v)
  end.

Definition squeezed_sum (t : squeezed) : R :=
  match t with
  | Scalar x => x
  | Vector v => Tensor.sum_list v
  end.

(** [tf.shape(t)[0]]: an [int32] scalar; indexing the empty shape of a
    scalar is out of bounds. *)
Definition tf_shape_0 (t : squeezed) : result int_scalar :=
  match t with
  | Scalar _ =>
      Raise (InvalidArgumentError "slice index 0 of dimension 0 out of bounds")
  | Vector v => Ok (IntScalar int32 (Z.of_nat (length v)))
  end.

Section MeanAbsoluteError.

(** [self(inputs)["regression"]] for one batch: one value per sample. *)
Variable input : Type.
Variable call_regression : input -> list R.
Variables mean std : R.

(** One batch is the pair [(x, y["reg_out"])]. *)
Definition mae_batch (acc : R * int_scalar) (batch : input * list R)
  : result (R * int_scalar) :=
  let '(mae, counts) := acc in
  let '(x, reg_out) := batch in
  let y_pred := tf_squeeze (call_regression x) in
  let y_true := tf_squeeze reg_out in
  let y_pred := squeezed_map (fun v => v * std + mean) y_pred in
  let y_true := squeezed_map (fun v => v * std + mean) y_true in
  let mae := mae + squeezed_sum (squeezed_map Rabs (squeezed_sub y_true y_pred)) in
  n ← tf_shape_0 y_pred;
  counts ← tf_add_int counts n;
  Ok (mae, counts).

Fixpoint mae_loop (acc : R * int_scalar) (dataset : list (input * list R))
  : result (R * int_scalar) :=
  match dataset with
  | [] => Ok acc
  | batch :: rest => acc' ← mae_batch acc batch; mae_loop acc' rest
  end.

Definition mean_absolute_error (dataset : list (input * list R)) : result R :=
  acc ← mae_loop (0, IntScalar int64 0) dataset;
  let mae := fst acc + fst acc in
  let counts := IZR (is_val (snd acc)) in
  Ok (mae / counts).

(** The absolute errors of one batch after denormalisation. *)
Definition batch_abs_error (batch : input * list R) : R :=
  Tensor.sum_list
    (Tensor.zip2 (fun t p => Rabs ((t * std + mean) - (p * std + mean)))
                 (snd batch) (call_regression (fst batch))).

End MeanAbsoluteError.

(** *** [get_config] and [from_config] *)
Section Serialization.

(** Python objects are opaque here; the two Keras functions act on them. *)
Variable pyval : Type.
Variable serialize_keras_object : pyval -> pyval.
Variable deserialize_keras_object : pyval -> pyval.
(** [super().get_config()], a function of the keyword arguments the base
    class was built with. *)
Variable base_get_config : gmap string pyval -> gmap string pyval.

Record AttentionRegression : Type := {
  mean : pyval;
  std : pyval;
  feature_emb : pyval;
  binary_loadings : pyval;
  regressor : pyval;
  kwargs : gmap string pyval
}.

(** The constructor called on the unpacked dictionary, as [from_config]
    does: the five named parameters are required, the rest is [kwargs]. *)
Definition required (config : gmap string pyval) (key : string) : result pyval :=
  match config !! key with
  | Some v => Ok v
  | None => Raise (TypeError ("missing required argument " +:+ key))
  end.

Definition cls (config : gmap string pyval) : result AttentionRegression :=
  m ← required config "mean";
  s ← required config "std";
  fe ← required config "feature_emb";
  bl ← required config "binary_loadings";
  rg ← required config "regressor";
  Ok {| mean := m; std := s; feature_emb := fe; binary_loadings := bl;
        regressor := rg;
        kwargs := delete "mean" (delete "std" (delete "feature_emb"
                    (delete "binary_loadings" (delete "regressor" config)))) |}.

(** [{**base_config, **config}]: the right operand wins. *)
Definition get_config (self : AttentionRegression) : gmap string pyval :=
  let base_config := base_get_config (kwargs self) in
  let config : gmap string pyval :=
    <["mean" := mean self]>
    (<["std" := std self]>
    (<["feature_emb" := serialize_keras_object (feature_emb self)]>
    (<["binary_loadings" := serialize_keras_object (binary_loadings self)]>
    (<["regressor" := serialize_keras_object (regressor self)]> ∅)))) in
  config ∪ base_config.

Definition getitem (config : gmap string pyval) (key : string) : result pyval :=
  match config !! key with
  | Some v => Ok v
  | None => Raise (KeyError key)
  end.

Definition from_config (config : gmap string pyval)
  : result AttentionRegression :=
  fe ← getitem config "feature_emb";
  let config := <["feature_emb" := deserialize_keras_object fe]> config in
  bl ← getitem config "binary_loadings";
  let config := <["binary_loadings" := deserialize_keras_object bl]> config in
  rg ← getitem config "regressor";
  let config := <["regressor" := deserialize_keras_object rg]> config in
  cls config.

End Serialization.

Arguments mean {pyval} _.
Arguments std {pyval} _.
Arguments feature_emb {pyval} _.
Arguments binary_loadings {pyval} _.
Arguments regressor {pyval} _.
Arguments kwargs {pyval} _.
Arguments get_config {pyval} _ _ _.
Arguments from_config {pyval} _ _.
Arguments cls {pyval} _.
Arguments mean_absolute_error {input} _ _ _ _.
Arguments mae_loop {input} _ _ _ _ _.
Arguments mae_batch {input} _ _ _ _ _.
Arguments batch_abs_error {input} _ _ _ _.

End Model.

(** ** src/amplicon_gpt/callbacks.py *)
Module Callbacks.
Import Py Tensor.

(** *** [MAE_Scatter] *)

(** What [on_epoch_end] does to the outside world: [model.save(path)] and
    the call of the module's [mean_absolute_error], which writes the figure
    [MAE-<title>-<index>.png] under [figure_path]. *)
Inductive scatter_event : Type :=
  | ScatterModelSave (path : string)
  | ScatterFigure (figure_path title : string) (index : Z) (s_type : string).

Record MAE_Scatter : Type := {
  ms_root_path : string;
  ms_model_path : string;
  ms_figure_path : string;
  ms_cur_step : Z;
  ms_total_mae : Z;
  ms_s_type : string;
  ms_title : string
}.

(** [__init__]; [steps_per_checkpoint] is accepted and not stored. *)
Definition MAE_Scatter_init (root_path s_type title : string)
  (steps_per_checkpoint : Z) : MAE_Scatter :=
  {| ms_root_path := root_path;
     ms_model_path := os_path_join root_path "model.keras";
     ms_figure_path := os_path_join root_path "figures";
     ms_cur_step := 0;
     ms_total_mae := 0;
     ms_s_type := s_type;
     ms_title := title |}.

Definition ms_set_cur_step (v : Z) (self : MAE_Scatter) : MAE_Scatter :=
  {| ms_root_path := ms_root_path self; ms_model_path := ms_model_path self;
     ms_figure_path := ms_figure_path self; ms_cur_step := v;
     ms_total_mae := ms_total_mae self; ms_s_type := ms_s_type self;
     ms_title := ms_title self |}.

Definition ms_set_total_mae (v : Z) (self : MAE_Scatter) : MAE_Scatter :=
  {| ms_root_path := ms_root_path self; ms_model_path := ms_model_path self;
     ms_figure_path := ms_figure_path self; ms_cur_step := ms_cur_step self;
     ms_total_mae := v; ms_s_type := ms_s_type self;
     ms_title := ms_title self |}.

Definition MAE_Scatter_on_epoch_end (self : MAE_Scatter) (epoch : Z)
  : MAE_Scatter * list scatter_event :=
  let '(self, events) :=
    if (ms_cur_step self mod 5 =? 0)%Z then
      let self := ms_set_total_mae (ms_total_mae self + 1) self in
      (ms_set_cur_step 0 self,
       [ScatterModelSave (ms_model_path self);
        ScatterFigure (ms_figure_path self) (ms_title self)
                      (ms_total_mae self) (ms_s_type self)])
    else (self, []) in
  (ms_set_cur_step (ms_cur_step self + 1) self, events).

(** Keras calls [on_epoch_end] with epochs [0, 1, 2, ...]; the run keeps
    the events of every call. *)
Fixpoint MAE_Scatter_run (self : MAE_Scatter) (first_epoch : nat) (epochs : nat)
  : MAE_Scatter * list (nat * list scatter_event) :=
  match epochs with
  | O => (self, [])
  | S k =>
      let '(self, events) := MAE_Scatter_on_epoch_end self (Z.of_nat first_epoch) in
      let '(self, log) := MAE_Scatter_run self (S first_epoch) k in
      (self, (first_epoch, events) :: log)
  end.

(** The epochs of a run at which something was saved or written. *)
Definition logging_epochs {E : Type} (log : list (nat * list E)) : list nat :=
  map fst (List.filter (fun entry => negb (Nat.eqb (length (snd entry)) 0)) log).

(** *** [ProjectEncoder] *)

(** A [skbio] distance matrix: the data and the sample ids. *)
Record distance_matrix : Type := DistanceMatrix {
  dm_data : tensor2;
  dm_ids : list string
}.

(** Modelled from the spec: the module [amplicon_gpt.losses] that
    callbacks.py imports [_pairwise_distances] from is not among the
    sources; the pairwise distance matrix of the spec is the function of
    that name in src/aam/losses.py, which is used here. *)
Definition amplicon_gpt_pairwise_distances : tensor2 -> bool -> tensor2 :=
  Losses._pairwise_distances.

Record ProjectEncoder : Type := {
  pe_batch_size : Z;
  pe_sample_ids : list string;   (* self.table.ids(axis='sample') *)
  pe_model_path : string;
  pe_cur_step : Z;
  pe_pred_pcoa_path : string;
  pe_true_pcoa_path : string;
  pe_table_path : string;
  pe_tree_path : string;
  pe_num_samples : Z
}.

(** [__init__]; whatever else the caller passes, [steps_per_checkpoint]
    included, lands in [kwargs] and is dropped. *)
Definition ProjectEncoder_init (sample_ids : list string)
  (model_path pred_pcoa_path true_pcoa_path table_path tree_path : string)
  (num_samples batch_size : Z) (kwargs : list (string * Z)) : ProjectEncoder :=
  {| pe_batch_size := batch_size; pe_sample_ids := sample_ids;
     pe_model_path := model_path; pe_cur_step := 0;
     pe_pred_pcoa_path := pred_pcoa_path; pe_true_pcoa_path := true_pcoa_path;
     pe_table_path := table_path; pe_tree_path := tree_path;
     pe_num_samples := num_samples |}.

Definition pe_set_cur_step (v : Z) (self : ProjectEncoder) : ProjectEncoder :=
  {| pe_batch_size := pe_batch_size self; pe_sample_ids := pe_sample_ids self;
     pe_model_path := pe_model_path self; pe_cur_step := v;
     pe_pred_pcoa_path := pe_pred_pcoa_path self;
     pe_true_pcoa_path := pe_true_pcoa_path self;
     pe_table_path := pe_table_path self; pe_tree_path := pe_tree_path self;
     pe_num_samples := pe_num_samples self |}.

(** What one call meets outside the callback: the array
    [self.model.predict(self.data)] and the permutation
    [np.random.shuffle] applies. *)
Record world : Type := {
  w_predict : tensor2;
  w_shuffle : list nat -> list nat
}.

(** [int(n / batch_size) * batch_size] on Python integers. *)
Definition total_samples_of (n batch_size : Z) : result Z :=
  if (batch_size =? 0)%Z then Raise ZeroDivisionError
  else Ok (py_int (inject_Z n / inject_Z batch_size) * batch_size)%Z.

(** [tf.gather(pred, indices)] and [ids[indices]]. *)
Definition gather {A : Type} (d : A) (l : list A) (indices : list nat) : list A :=
  map (fun i => nth i l d) indices.

Section External.

(** The libraries the callback drives: [skbio]'s [pcoa] (with
    [method='fsvd'] and the given number of dimensions), [unifrac]'s
    [unweighted] and [DistanceMatrix.filter]. *)
Variable ordination : Type.
Variable pcoa : distance_matrix -> nat -> ordination.
Variable unweighted : string -> string -> distance_matrix.
Variable dm_filter : distance_matrix -> list string -> distance_matrix.

Inductive encoder_event : Type :=
  | EncoderPrint (msg : string)
  | EncoderModelSave (path : string)
  | EncoderWrite (path : string) (o : ordination).

(** The sample indices drawn by one call. *)
Definition drawn_indices (self : ProjectEncoder) (w : world) : result (list nat) :=
  total_samples ← total_samples_of (Z.of_nat (length (pe_sample_ids self)))
                                   (pe_batch_size self);
  let sample_indices := seq 0 (Z.to_nat total_samples) in
  let sample_indices := w_shuffle w sample_indices in
  Ok (py_slice None (Some (pe_num_samples self)) sample_indices).

Definition _log_epoch_data (self : ProjectEncoder) (w : world)
  : result (list encoder_event) :=
  let printed := EncoderPrint "loggin data..." in
  let saved := EncoderModelSave (os_path_join (pe_model_path self) "encoder.keras") in
  sample_indices ← drawn_indices self w;
  let pred := w_predict w in
  let pred := gather [] pred sample_indices in
  let distances := amplicon_gpt_pairwise_distances pred false in
  let pred_unifrac_distances :=
    DistanceMatrix distances (gather EmptyString (pe_sample_ids self) sample_indices) in
  let pred_pcoa := pcoa pred_unifrac_distances 3 in
  let true_unifrac_distances :=
    dm_filter (unweighted (pe_table_path self) (pe_tree_path self))
              (gather EmptyString (pe_sample_ids self) sample_indices) in
  let true_pcoa := pcoa true_unifrac_distances 3 in
  Ok [printed; saved;
      EncoderWrite (pe_pred_pcoa_path self) pred_pcoa;
      EncoderWrite (pe_true_pcoa_path self) true_pcoa].

Definition ProjectEncoder_on_epoch_end (self : ProjectEncoder) (epoch : Z)
  (w : world) : result (ProjectEncoder * list encoder_event) :=
  acc ← (if (pe_cur_step self mod 5 =? 0)%Z then
           events ← _log_epoch_data self w;
           Ok (pe_set_cur_step 0 self, events)
         else Ok (self, []));
  Ok (pe_set_cur_step (pe_cur_step (fst acc) + 1) (fst acc), snd acc).

Fixpoint ProjectEncoder_run (self : ProjectEncoder) (worlds : nat -> world)
  (first_epoch : nat) (epochs : nat)
  : result (ProjectEncoder * list (nat * list encoder_event)) :=
  match epochs with
  | O => Ok (self, [])
  | S k =>
      acc ← ProjectEncoder_on_epoch_end self (Z.of_nat first_epoch)
                                        (worlds first_epoch);
      rest ← ProjectEncoder_run (fst acc) worlds (S first_epoch) k;
      Ok (fst rest, (first_epoch, snd acc) :: snd rest)
  end.

End External.

Arguments EncoderPrint {ordination} msg.
Arguments EncoderModelSave {ordination} path.
Arguments EncoderWrite {ordination} path o.
Arguments _log_epoch_data {ordination} pcoa unweighted dm_filter self w.
Arguments ProjectEncoder_on_epoch_end {ordination} pcoa unweighted dm_filter
  self epoch w.
Arguments ProjectEncoder_run {ordination} pcoa unweighted dm_filter
  self worlds first_epoch epochs.

(** The counter after [k] calls agrees with [k] modulo 5 and stays within
    [0, 5]. *)
Definition counter_inv (k : nat) (cur_step : Z) : Prop :=
  (cur_step mod 5 = Z.of_nat k mod 5)%Z /\ (0 <= cur_step <= 5)%Z.

Definition every_fifth (first_epoch epochs : nat) : list nat :=
  List.filter (fun e => Nat.eqb (e mod 5) 0) (seq first_epoch epochs).

End Callbacks.

(** ** src/transfer_learning.py *)
Module TransferLearning.
Import Py.

(** [int(size*config['train_percent']/batch_size)*batch_size]. *)
Definition train_size (size : Z) (train_percent : Q) (batch_size : Z)
  : result Z :=
  if (batch_size =? 0)%Z then Raise ZeroDivisionError
  else Ok (py_int (inject_Z size * train_percent / inject_Z batch_size)
           * batch_size)%Z.

(** [tf.data.Dataset.take] and [skip]: a negative count takes, or skips,
    the whole dataset. *)
Definition ds_take {A : Type} (count : Z) (ds : list A) : list A :=
  if (count <? 0)%Z then ds else firstn (Z.to_nat count) ds.

Definition ds_skip {A : Type} (count : Z) (ds : list A) : list A :=
  if (count <? 0)%Z then [] else skipn (Z.to_nat count) ds.

(** The training and validation elements [unifrac] builds, before
    batching; [size] is the cardinality of the dataset. *)
Definition unifrac_split {A : Type} (dataset : list A) (train_percent : Q)
  (batch_size : Z) : result (list A * list A) :=
  let size := Z.of_nat (length dataset) in
  train_size ← train_size size train_percent batch_size;
  let training_dataset := ds_take train_size dataset in
  let val_data := ds_skip train_size dataset in
  Ok (training_dataset, val_data).


End TransferLearning.

(** ** Sample values the statements below are instantiated at *)
Module Samples.
Import Model Callbacks.

Definition model0 : AttentionRegression nat :=
  {| mean := 30; std := 12; feature_emb := 1; binary_loadings := 2;
     regressor := 3; kwargs := ∅ |}%nat.

Definition encoder0 : ProjectEncoder :=
  ProjectEncoder_init ["s1"; "s2"; "s3"] "out" "pred.pcoa" "true.pcoa"
                      "table.biom" "tree.nwk" 2 2 [("steps_per_checkpoint", 3%Z)].

Definition world0 : world :=
  {| w_predict := [[0; 0]; [3; 4]; [1; 1]]; w_shuffle := @rev nat |}.

End Samples.

(** ** src/aam/losses.py: the residual losses and [mae_loss] *)
Module ResidualLosses.
Import Tensor Losses.





(** [tf.reshape(ys, (-1, 1)) - tf.reshape(ys, (1, -1))]. *)
Definition residuals (ys : tensor1) : tensor2 :=
  tensor_sub (expand_dims_1 ys) (expand_dims_0 ys).










End ResidualLosses.

(** ** src/sepsis/model.py: [feature_confidences] *)
Module Confidence.
Import Py Tensor Model.

(** [classes = tf.cast(sample_token_mask, tf.int64) + 1;
     classes *= tf.cast(tf.greater(sample_tokens, 0), tf.int64)]. *)
Definition confidence_class (token : Z) (mask : bool) : Z :=
  ((Z.b2z mask + 1) * Z.b2z (0 <? token))%Z.

(** [conf_dict["classes"]] and [model_outputs["class_labels"]]. *)
Inductive class_name : Type := class_true | class_added.

Definition class_labels (c : class_name) : Z :=
  match c with
  | class_true => 2%Z
  | class_added => 1%Z
  end.

(** The closure [_process_class_masks] for the class [c]: the mask of the
    class and the tokens with every other position set to 0. *)
Definition _process_class_masks (tokens : list (list Z))
  (token_mask : list (list bool)) (c : class_name)
  : list (list bool) * list (list Z) :=
  let classes := zip2 (zip2 confidence_class) tokens token_mask in
  let cls_val := class_labels c in
  let cls_mask := map (map (fun k => (k =? cls_val)%Z)) classes in
  let class_tokens := zip2 (zip2 (fun t (m : bool) => (t * Z.b2z m)%Z)) tokens cls_mask in
  (cls_mask, class_tokens).

(** [tf.scatter_nd(indices, updates, shape=[n])] on a rank-1 target:
    updates at one index add up; an index outside [0, n) is rejected
    (the CPU kernel). *)
Fixpoint scatter_add (out : list R) (iu : list (Z * R)) : result (list R) :=
  match iu with
  | [] => Ok out
  | (i, u) :: rest =>
      if (0 <=? i)%Z && (i <? Z.of_nat (length out))%Z
      then scatter_add (<[Z.to_nat i := nth (Z.to_nat i) out 0 + u]> out) rest
      else Raise (InvalidArgumentError "indices out of bounds")
  end.

(** What an update contributes to index [t]. *)
Definition hits (t : nat) (iu : Z * R) : R :=
  if (fst iu =? Z.of_nat t)%Z then snd iu else 0.

Definition scatter_nd (indices : list Z) (updates : list R) (n : nat)
  : result (list R) :=
  scatter_add (repeat 0 n) (zip2 pair indices updates).

(** [tf.map_fn] with a function that may raise. *)
Fixpoint map_result {A B : Type} (f : A -> result B) (l : list A)
  : result (list B) :=
  match l with
  | [] => Ok []
  | x :: l' => y ← f x; ys ← map_result f l'; Ok (y :: ys)
  end.

(** [tf.reduce_sum(rows, axis=0)] on rows of length [n]. *)
Definition sum_rows (n : nat) (rows : list (list R)) : list R :=
  fold_right (zip2 Rplus) (repeat 0 n) rows.

Definition bool_to_float (m : bool) : R := if m then 1 else 0.

(** The closure [map_to_tokens] for one class: [class_mask] and
    [class_tokens] are the results of [_process_class_masks]. *)
Definition map_to_tokens (total_tokens : nat) (class_mask : list (list bool))
  (class_tokens : list (list Z)) (batch_tensor : tensor2) : result (list R) :=
  let class_tensor :=
    zip2 (zip2 (fun x m => x * bool_to_float m)) batch_tensor class_mask in
  rows ← map_result
           (fun inputs => scatter_nd (snd inputs) (fst inputs) total_tokens)
           (zip2 pair class_tensor class_tokens);
  Ok (sum_rows total_tokens rows).

(** What one token id collects from one sample, and from a batch: the
    values at the positions of class [c] that hold the token. *)
Definition sample_mass (c : class_name) (t : Z) (tokens : list Z)
  (mask : list bool) (values : list R) : R :=
  sum_list (zip2 (fun tm x =>
                    if ((confidence_class (fst tm) (snd tm) =? class_labels c)
                        && (fst tm =? t))%Z then x else 0)
                 (zip2 pair tokens mask) values).

Definition batch_mass (c : class_name) (t : Z) (tokens : list (list Z))
  (token_mask : list (list bool)) (batch_tensor : tensor2) : R :=
  sum_list (zip2 (fun tm values => sample_mass c t (fst tm) (snd tm) values)
                 (zip2 pair tokens token_mask) batch_tensor).

(** The number of tokens labelled 1 in one sample of [train_step]. *)
Definition added_count (sample : list Z) : Z :=
  reduce_sum_int (map (fun l => Z.b2z (l =? 1)%Z) sample).

End Confidence.

(** ** src/amplicon_gpt/callbacks.py: [Accuracy] and the files of a run *)
Module CallbackRuns.
Import Py Tensor Callbacks.

(** [a % b] on Python integers. *)
Definition py_mod (a b : Z) : result Z :=
  if (b =? 0)%Z then Raise ZeroDivisionError else Ok (a mod b)%Z.

(** [model.save(path)] and the two figures [auc-<index>.png] and
    [roc-<index>.png] written under [figure_path]. *)
Inductive accuracy_event : Type :=
  | AccuracyModelSave (path : string)
  | AccuracyPrc (figure_path : string) (index : Z)
  | AccuracyRoc (figure_path : string) (index : Z).

Record Accuracy : Type := {
  ac_root_path : string;
  ac_model_path : string;
  ac_figure_path : string;
  ac_cur_step : Z;
  ac_total_mae : Z;
  ac_s_type : string;
  ac_steps_per_checkpoint : Z
}.

Definition Accuracy_init (root_path s_type : string) (steps_per_checkpoint : Z)
  : Accuracy :=
  {| ac_root_path := root_path;
     ac_model_path := os_path_join root_path "model.keras";
     ac_figure_path := os_path_join root_path "figures";
     ac_cur_step := 0;
     ac_total_mae := 0;
     ac_s_type := s_type;
     ac_steps_per_checkpoint := steps_per_checkpoint |}.

Definition ac_set_cur_step (v : Z) (self : Accuracy) : Accuracy :=
  {| ac_root_path := ac_root_path self; ac_model_path := ac_model_path self;
     ac_figure_path := ac_figure_path self; ac_cur_step := v;
     ac_total_mae := ac_total_mae self; ac_s_type := ac_s_type self;
     ac_steps_per_checkpoint := ac_steps_per_checkpoint self |}.

Definition ac_set_total_mae (v : Z) (self : Accuracy) : Accuracy :=
  {| ac_root_path := ac_root_path self; ac_model_path := ac_model_path self;
     ac_figure_path := ac_figure_path self; ac_cur_step := ac_cur_step self;
     ac_total_mae := v; ac_s_type := ac_s_type self;
     ac_steps_per_checkpoint := ac_steps_per_checkpoint self |}.

Definition Accuracy_on_epoch_end (self : Accuracy) (epoch : Z)
  : result (Accuracy * list accuracy_event) :=
  r ← py_mod (ac_cur_step self) (ac_steps_per_checkpoint self);
  let '(self, events) :=
    if (r =? 0)%Z then
      let self := ac_set_total_mae (ac_total_mae self + 1) self in
      (ac_set_cur_step 0 self,
       [AccuracyModelSave (ac_model_path self);
        AccuracyPrc (ac_figure_path self) (ac_total_mae self);
        AccuracyRoc (ac_figure_path self) (ac_total_mae self)])
    else (self, []) in
  Ok (ac_set_cur_step (ac_cur_step self + 1) self, events).

Fixpoint Accuracy_run (self : Accuracy) (first_epoch : nat) (epochs : nat)
  : result (Accuracy * list (nat * list accuracy_event)) :=
  match epochs with
  | O => Ok (self, [])
  | S k =>
      acc ← Accuracy_on_epoch_end self (Z.of_nat first_epoch);
      rest ← Accuracy_run (fst acc) (S first_epoch) k;
      Ok (fst rest, (first_epoch, snd acc) :: snd rest)
  end.

(** The epochs [e] of a run with [e mod period = 0]. *)
Definition every_nth (period : Z) (first_epoch epochs : nat) : list nat :=
  List.filter (fun e => (Z.of_nat e mod period =? 0)%Z) (seq first_epoch epochs).

(** The counter of a callback of period [p] after [k] calls. *)
Definition period_inv (p : Z) (k : nat) (cur_step : Z) : Prop :=
  (cur_step mod p = Z.of_nat k mod p)%Z /\ (0 <= cur_step <= p)%Z.

(** The numbers of the figures and the paths of the saves a run of
    [MAE_Scatter] leaves behind, in order. *)
Definition figure_indices (log : list (nat * list scatter_event)) : list Z :=
  flat_map (fun entry =>
    flat_map (fun e => match e with
                       | ScatterFigure _ _ index _ => [index]
                       | ScatterModelSave _ => []
                       end) (snd entry)) log.

Definition saved_paths (log : list (nat * list scatter_event)) : list string :=
  flat_map (fun entry =>
    flat_map (fun e => match e with
                       | ScatterModelSave path => [path]
                       | ScatterFigure _ _ _ _ => []
                       end) (snd entry)) log.

(** [first + 1, ..., first + count]. *)
Definition count_from (first : Z) (count : nat) : list Z :=
  map (fun i => (first + Z.of_nat (S i))%Z) (seq 0 count).

End CallbackRuns.

(** ** src/aam/cli_util.py *)
Module CliUtil.

Inductive py_type : Type := py_int_type | py_float_type.

(** [click.option(flag, default=..., type=...)]. *)
Record click_option : Type := ClickOption {
  opt_flag : string;
  opt_default : Q;
  opt_type : py_type
}.

Definition model_options : list click_option :=
  [ ClickOption "--batch-size" 8 py_int_type;
    ClickOption "--train-percent" (8 # 10) py_float_type;
    ClickOption "--epochs" 100 py_int_type;
    ClickOption "--repeat" 1 py_int_type;
    ClickOption "--dropout" (5 # 10) py_float_type;
    ClickOption "--pca-hidden-dim" 64 py_int_type;
    ClickOption "--pca-heads" 4 py_int_type;
    ClickOption "--dff" 2048 py_int_type;
    ClickOption "--d-model" 64 py_int_type;
    ClickOption "--enc_layers" 6 py_int_type;
    ClickOption "--enc-heads" 4 py_int_type;
    ClickOption "--output-dim" 1 py_int_type;
    ClickOption "--lr" (1 # 1000) py_float_type ].

(** [aam_model_options(func)]; [decorate o] is what calling the option
    [o] on a function does. *)
Definition aam_model_options {F : Type} (decorate : click_option -> F -> F)
  (func : F) : F :=
  fold_left (fun func option => decorate option func) (rev model_options) func.

End CliUtil.

(** * Properties *)

(** ** Python slices and [int] *)
Module PyFacts.
Import Py.

Lemma py_slice_prefix {A : Type} (m : Z) (l : list A) :
  (0 <= m)%Z -> py_slice None (Some m) l = firstn (Z.to_nat m) l.
Proof.
  intros Hm. unfold py_slice, norm_index.
  destruct (Z.ltb_spec m 0); [lia|]. rewrite Z.sub_0_r.
  change (Z.to_nat 0) with 0%nat. rewrite skipn_O.
  destruct (Z.le_ge_cases m (Z.of_nat (length l))).
  - now rewrite Z.min_l.
  - rewrite Z.min_r by lia. rewrite Nat2Z.id, !firstn_all2 by lia. reflexivity.
Qed.

Lemma py_slice_suffix {A : Type} (m : Z) (l : list A) :
  (0 < m <= Z.of_nat (length l))%Z ->
  py_slice (Some (- m)%Z) None l = skipn (length l - Z.to_nat m) l.
Proof.
  intros Hm. unfold py_slice, norm_index.
  destruct (Z.ltb_spec (- m) 0); [|lia].
  rewrite Z.max_l by lia.
  replace (Z.to_nat (- m + Z.of_nat (length l))) with (length l - Z.to_nat m)%nat by lia.
  apply firstn_all2. rewrite length_skipn. lia.
Qed.

Lemma py_slice_suffix_zero {A : Type} (l : list A) :
  py_slice (Some (- 0)%Z) None l = l.
Proof.
  unfold py_slice, norm_index. change (- 0)%Z with 0%Z. simpl.
  rewrite Z.min_l by lia. rewrite Z.sub_0_r, Nat2Z.id.
  change (Z.to_nat 0) with 0%nat. rewrite skipn_O. apply firstn_all.
Qed.

Lemma py_int_ratio (n bs : Z) :
  (0 <= n)%Z -> (0 < bs)%Z -> py_int (inject_Z n / inject_Z bs) = (n / bs)%Z.
Proof.
  intros Hn Hb. destruct bs as [|p|p]; try lia.
  unfold py_int, Qdiv, Qinv, inject_Z. simpl.
  rewrite Z.mul_1_r. apply Z.quot_div_nonneg; lia.
Qed.


End PyFacts.

(** ** Tensors in tabulated form *)
Module TensorFacts.
Import Tensor.

Lemma map_seq_nth {A B : Type} (d : A) (f : A -> B) (l : list A) :
  map f l = map (fun i => f (nth i l d)) (seq 0 (length l)).
Proof.
  induction l as [|x l IH]; simpl; [reflexivity|].
  f_equal. rewrite IH, <- seq_shift, map_map. reflexivity.
Qed.

Lemma nth_map_seq {B : Type} (d : B) (g : nat -> B) (n i : nat) :
  (i < n)%nat -> nth i (map g (seq 0 n)) d = g i.
Proof.
  intros Hi. rewrite (nth_indep _ d (g 0%nat)) by (rewrite length_map, length_seq; lia).
  rewrite (map_nth g (seq 0 n) 0%nat i), seq_nth by lia. reflexivity.
Qed.

Lemma row_tab n m g i : (i < n)%nat -> row (tab n m g) i = map (g i) (seq 0 m).
Proof. intros Hi. unfold row, tab. now rewrite nth_map_seq. Qed.

Lemma entry_tab n m g i j :
  (i < n)%nat -> (j < m)%nat -> entry (tab n m g) i j = g i j.
Proof. intros Hi Hj. unfold entry. rewrite row_tab by easy. now rewrite nth_map_seq. Qed.

Lemma length_tab n m g : length (tab n m g) = n.
Proof. unfold tab. now rewrite length_map, length_seq. Qed.


Lemma tab_ext n m g h :
  (forall i j, (i < n)%nat -> (j < m)%nat -> g i j = h i j) -> tab n m g = tab n m h.
Proof.
  intros E. unfold tab. apply map_ext_in. intros i Hi. apply map_ext_in. intros j Hj.
  apply in_seq in Hi, Hj. apply E; lia.
Qed.

Lemma shape_tab M n m : has_shape M n m -> M = tab n m (entry M).
Proof.
  intros [Hn Hr]. unfold tab. rewrite <- (map_id M) at 1.
  rewrite (map_seq_nth [] (fun r => r) M), Hn. apply map_ext_in. intros i Hi.
  apply in_seq in Hi. assert (L : length (nth i M []) = m).
  { rewrite List.Forall_forall in Hr. apply Hr, nth_In. lia. }
  rewrite <- (map_id (nth i M [])) at 1.
  rewrite (map_seq_nth 0 (fun x => x) (nth i M [])), L. reflexivity.
Qed.

Lemma map2d_tab f n m g : map2d f (tab n m g) = tab n m (fun i j => f (g i j)).
Proof. unfold map2d, tab. rewrite map_map. apply map_ext. intros i. now rewrite map_map. Qed.

Lemma matmul_transpose_b_tab a b :
  matmul_transpose_b a b =
  tab (length a) (length b) (fun i j => dot (row a i) (row b j)).
Proof.
  unfold matmul_transpose_b, tab, row.
  rewrite (map_seq_nth [] _ a). apply map_ext. intros i.
  apply (map_seq_nth [] (fun rb => dot (nth i a []) rb) b).
Qed.

Lemma column_transposed (b : tensor2) (n d j : nat) :
  has_shape b n d -> (0 < n)%nat -> (0 < d)%nat -> (j < n)%nat ->
  column (transpose b) j = row b j.
Proof.
  intros [Hn Hr] Pn Pd Hj. unfold column, transpose. rewrite map_map.
  assert (Hc : ncols b = d).
  { unfold ncols. destruct b as [|r b]; [simpl in Hn; lia|].
    simpl. now inversion Hr. }
  assert (Hl : length (row b j) = d).
  { rewrite List.Forall_forall in Hr. apply Hr, nth_In. lia. }
  rewrite Hc, <- Hl. unfold column.
  rewrite <- (map_id (row b j)) at 2.
  rewrite (map_seq_nth 0 (fun x => x) (row b j)).
  apply map_ext_in. intros k Hk. apply in_seq in Hk.
  rewrite (nth_indep _ 0 ((fun r => nth k r 0) [])) by (rewrite length_map; lia).
  rewrite (map_nth (fun r => nth k r 0) b [] j). reflexivity.
Qed.

(** On a tensor with rows and columns the one-step product is the product
    with the transpose. *)
Lemma matmul_transpose (a b : tensor2) (n d : nat) :
  has_shape b n d -> (0 < n)%nat -> (0 < d)%nat ->
  matmul a (transpose b) = matmul_transpose_b a b.
Proof.
  intros Hb Pn Pd. unfold matmul, matmul_transpose_b.
  assert (Hc : ncols (transpose b) = n).
  { unfold ncols, transpose.
    assert (E : ncols b = d).
    { unfold ncols. destruct Hb as [Hn Hr]. destruct b as [|r b]; [simpl in Hn; lia|].
      simpl. now inversion Hr. }
    rewrite E. destruct d; [lia|]. simpl. unfold column.
    rewrite length_map. apply Hb. }
  rewrite Hc. apply map_ext. intros ra.
  transitivity (map (fun j => dot ra (nth j b [])) (seq 0 (length b)));
    [| symmetry; apply (map_seq_nth [] (fun rb => dot ra rb)) ].
  rewrite (proj1 Hb). apply map_ext_in. intros j Hj. apply in_seq in Hj.
  f_equal. apply (column_transposed b n d); [assumption..|lia].
Qed.

Lemma diag_part_tab n g : diag_part (tab n n g) = map (fun i => g i i) (seq 0 n).
Proof.
  unfold diag_part. rewrite length_tab. apply map_ext_in. intros i Hi.
  apply in_seq in Hi. apply entry_tab; lia.
Qed.

Lemma expand_dims_1_tab n g :
  expand_dims_1 (map g (seq 0 n)) = tab n 1 (fun i _ => g i).
Proof. unfold expand_dims_1, tab. now rewrite map_map. Qed.

Lemma expand_dims_0_tab n g :
  expand_dims_0 (map g (seq 0 n)) = tab 1 n (fun _ j => g j).
Proof. reflexivity. Qed.

Lemma repeat_map_seq {A : Type} (x : A) n s : repeat x n = map (fun _ => x) (seq s n).
Proof. revert s. induction n; intros s; simpl; [reflexivity|]. now rewrite <- IHn. Qed.

Lemma stretch_map_seq {A : Type} (d : A) (G : nat -> A) (k n : nat) :
  k = n \/ k = 1%nat ->
  stretch d n (map G (seq 0 k)) = map (fun i => G (clip k i)) (seq 0 n).
Proof.
  intros Hk. unfold stretch, clip. rewrite length_map, length_seq.
  destruct (Nat.eqb_spec k 1) as [->|Hne].
  - simpl. apply repeat_map_seq.
  - destruct Hk as [->|?]; [reflexivity | contradiction].
Qed.

Lemma zip2_map {A B C D : Type} (f : A -> B -> C) (g : D -> A) (h : D -> B) l :
  zip2 f (map g l) (map h l) = map (fun x => f (g x) (h x)) l.
Proof. induction l; simpl; [reflexivity|]. now rewrite IHl. Qed.

Lemma ncols_tab n m g : (0 < n)%nat -> ncols (tab n m g) = m.
Proof.
  intros Hn. destruct n; [lia|]. unfold ncols, tab. simpl.
  now rewrite length_map, length_seq.
Qed.

Lemma bdim_l a b : compat a b -> a = bdim a b \/ a = 1%nat.
Proof. unfold compat, bdim. destruct (Nat.eqb_spec a 1); lia. Qed.

Lemma bdim_r a b : compat a b -> b = bdim a b \/ b = 1%nat.
Proof. unfold compat, bdim. destruct (Nat.eqb_spec a 1); lia. Qed.

Lemma broadcast2_tab f n1 m1 g n2 m2 h :
  (0 < n1)%nat -> (0 < n2)%nat -> compat n1 n2 -> compat m1 m2 ->
  broadcast2 f (tab n1 m1 g) (tab n2 m2 h) =
  tab (bdim n1 n2) (bdim m1 m2)
      (fun i j => f (g (clip n1 i) (clip m1 j)) (h (clip n2 i) (clip m2 j))).
Proof.
  intros P1 P2 Cn Cm. unfold broadcast2.
  rewrite !length_tab, !ncols_tab by assumption.
  unfold tab at 1 2.
  rewrite (stretch_map_seq [] _ n1 (bdim n1 n2)) by now apply bdim_l.
  rewrite (stretch_map_seq [] _ n2 (bdim n1 n2)) by now apply bdim_r.
  rewrite !map_map, zip2_map. unfold tab. apply map_ext. intros i.
  rewrite (stretch_map_seq 0 _ m1 (bdim m1 m2)) by now apply bdim_l.
  rewrite (stretch_map_seq 0 _ m2 (bdim m1 m2)) by now apply bdim_r.
  now rewrite zip2_map.
Qed.

Lemma mapi_from_seq {A B : Type} (f : nat -> A -> B) (g : nat -> A) k s n :
  mapi_from k f (map g (seq s n)) = map (fun i => f (k + (i - s))%nat (g i)) (seq s n).
Proof.
  revert k s. induction n; intros k s; simpl; [reflexivity|].
  f_equal; [f_equal; lia|]. rewrite IHn. apply map_ext_in. intros i Hi.
  apply in_seq in Hi. f_equal. lia.
Qed.

Lemma band_part_tab n m g lo up :
  band_part (tab n m g) lo up =
  tab n m (fun i j => if in_band lo up i j then g i j else 0).
Proof.
  unfold band_part, tab. rewrite mapi_from_seq. apply map_ext. intros i.
  rewrite mapi_from_seq. apply map_ext. intros j.
  now rewrite !Nat.sub_0_r.
Qed.

Lemma reduce_sum_tab n m g :
  reduce_sum (tab n m g) =
  sum_list (map (fun i => sum_list (map (g i) (seq 0 m))) (seq 0 n)).
Proof. unfold reduce_sum, tab. now rewrite map_map. Qed.

End TensorFacts.

(** ** Losses *)
Module LossesFacts.
Import Tensor TensorFacts Losses.

Ltac solve_compat := first [assumption | lia | unfold compat; lia].

Lemma bdim_same n : bdim n n = n.
Proof. unfold bdim. now destruct (Nat.eqb n 1). Qed.
Lemma bdim_1_l n : bdim 1 n = n.
Proof. reflexivity. Qed.
Lemma bdim_1_r n : bdim n 1 = n.
Proof. unfold bdim. now destruct (Nat.eqb_spec n 1). Qed.

Lemma clip_lt k i : (i < k)%nat -> clip k i = i.
Proof. unfold clip. destruct (Nat.eqb_spec k 1); lia. Qed.

Lemma entry_tab_dec n m g i j :
  entry (tab n m g) i j = if (i <? n)%nat && (j <? m)%nat then g i j else 0.
Proof.
  destruct (Nat.ltb_spec i n) as [Hi|Hi]; simpl.
  - destruct (Nat.ltb_spec j m) as [Hj|Hj]; [now apply entry_tab|].
    unfold entry. rewrite row_tab by easy. apply nth_overflow.
    now rewrite length_map, length_seq.
  - unfold entry, row. rewrite (nth_overflow (tab n m g)) by now rewrite length_tab.
    now destruct j.
Qed.

Lemma broadcast2_same f n m g h :
  (0 < n)%nat ->
  broadcast2 f (tab n m g) (tab n m h) = tab n m (fun i j => f (g i j) (h i j)).
Proof.
  intros Hn. rewrite broadcast2_tab; [|solve_compat..].
  rewrite !bdim_same. apply tab_ext. intros i j Hi Hj.
  now rewrite !clip_lt.
Qed.

Lemma pairwise_distances_tab e squared :
  (0 < length e)%nat ->
  _pairwise_distances e squared =
  tab (length e) (length e) (fun i j => pd_entry squared (row e i) (row e j)).
Proof.
  intros Hn. unfold _pairwise_distances. set (n := length e) in *.
  rewrite matmul_transpose_b_tab. fold n.
  rewrite diag_part_tab, expand_dims_1_tab, expand_dims_0_tab, map2d_tab.
  unfold tensor_sub, tensor_add, tensor_mul.
  rewrite (broadcast2_tab Rminus n 1 _ n n); [|solve_compat..].
  rewrite bdim_same, bdim_1_l.
  rewrite (broadcast2_tab Rplus n n _ 1 n); [|solve_compat..].
  rewrite bdim_same, bdim_1_r, map2d_tab.
  rewrite (tab_ext n n _ (fun i j => pd_sq (row e i) (row e j))).
  2:{ intros i j Hi Hj.
      repeat first [ rewrite (clip_lt n i) by assumption
                   | rewrite (clip_lt n j) by assumption ].
      reflexivity. }
  destruct squared; simpl; [reflexivity|].
  rewrite !map2d_tab, broadcast2_same, map2d_tab, broadcast2_same by assumption.
  reflexivity.
Qed.









Lemma pairwise_distances_nil squared : _pairwise_distances [] squared = [].
Proof. destruct squared; reflexivity. Qed.

Lemma pairwise_distances_entry e squared i j :
  entry (_pairwise_distances e squared) i j =
  if (i <? length e)%nat && (j <? length e)%nat
  then pd_entry squared (row e i) (row e j) else 0.
Proof.
  destruct e as [|r e].
  - rewrite pairwise_distances_nil. simpl. unfold entry, row.
    destruct i, j; reflexivity.
  - rewrite pairwise_distances_tab by (simpl; lia). apply entry_tab_dec.
Qed.



Lemma sq_euclid_dot a b :
  length a = length b -> dot a a - 2 * dot a b + dot b b = sq_euclid a b.
Proof.
  revert b. induction a as [|x a IH]; intros [|y b] L; simpl in *; try lia; try ring.
  rewrite <- (IH b) by lia. ring.
Qed.

Lemma sq_euclid_nonneg a b : 0 <= sq_euclid a b.
Proof.
  revert b. induction a as [|x a IH]; intros [|y b]; simpl; try lra.
  specialize (IH b). pose proof (Rle_0_sqr (x - y)) as S. unfold Rsqr in S. lra.
Qed.

Lemma pd_sq_sq_euclid a b : length a = length b -> pd_sq a b = sq_euclid a b.
Proof.
  intros L. unfold pd_sq. rewrite sq_euclid_dot by assumption.
  apply Rmax_left, sq_euclid_nonneg.
Qed.

Lemma in_band_upper i j : in_band 0 (-1) i j = (i <=? j)%nat.
Proof.
  unfold in_band. simpl. rewrite andb_true_r.
  destruct (Nat.leb_spec i j); [apply Z.leb_le | apply Z.leb_gt]; lia.
Qed.

Lemma sum_list_app l k : sum_list (l ++ k) = sum_list l + sum_list k.
Proof. induction l; simpl; [ring | rewrite IHl; ring]. Qed.

Lemma sum_list_zeros {A : Type} (l : list A) (f : A -> R) :
  (forall x, In x l -> f x = 0) -> sum_list (map f l) = 0.
Proof.
  induction l as [|x l IH]; intros H; simpl; [reflexivity|].
  rewrite (H x) by (simpl; auto). rewrite IH; [ring|].
  intros y Hy. apply H. simpl; auto.
Qed.

Lemma sum_upper_row (T : nat -> R) i b :
  (i <= b)%nat ->
  sum_list (map (fun j => if (i <=? j)%nat then T j else 0) (seq 0 b)) =
  sum_list (map T (seq i (b - i))).
Proof.
  intros Hi. replace b with (i + (b - i))%nat at 1 by lia.
  rewrite seq_app, map_app, sum_list_app. simpl.
  rewrite sum_list_zeros.
  - rewrite Rplus_0_l. f_equal. apply map_ext_in. intros j Hj. apply in_seq in Hj.
    destruct (Nat.leb_spec i j); [reflexivity | lia].
  - intros j Hj. apply in_seq in Hj. destruct (Nat.leb_spec i j); [lia | reflexivity].
Qed.

Lemma sum_list_flat_map {A B : Type} (f : B -> R) (g : A -> list B) l :
  sum_list (map f (flat_map g l)) = sum_list (map (fun x => sum_list (map f (g x))) l).
Proof.
  induction l as [|x l IH]; simpl; [reflexivity|].
  now rewrite map_app, sum_list_app, IH.
Qed.




Lemma comb_1 n : comb n 1 = n.
Proof. induction n; simpl; [reflexivity|]. rewrite IHn. destruct n; reflexivity. Qed.

Lemma comb_2 b : (2 * comb b 2 = b * (b - 1))%nat.
Proof.
  induction b as [|b IH]; [reflexivity|].
  change (comb (S b) 2) with (comb b 1 + comb b 2)%nat.
  rewrite comb_1. destruct b; simpl in *; lia.
Qed.


Lemma pairwise_loss_sum (b d : nat) (y_true y_pred : tensor2) :
  (0 < b)%nat -> has_shape y_true b b -> has_shape y_pred b d ->
  pairwise_loss b y_true y_pred =
  sum_list (map (pair_term y_true y_pred) (upper_pairs b)) / INR (comb b 2).
Proof.
  intros Hb St Sp. unfold pairwise_loss. f_equal.
  rewrite (shape_tab y_true b b St) at 1.
  rewrite pairwise_distances_tab by (rewrite (proj1 Sp); assumption).
  rewrite (proj1 Sp), map2d_tab. unfold tensor_sub.
  rewrite broadcast2_same, map2d_tab, band_part_tab, reduce_sum_tab by assumption.
  unfold upper_pairs. rewrite sum_list_flat_map. f_equal.
  apply map_ext_in. intros i Hi. apply in_seq in Hi.
  rewrite map_map.
  rewrite <- (sum_upper_row (fun j => pair_term y_true y_pred (i, j)) i b) by lia.
  f_equal. apply map_ext_in. intros j Hj. apply in_seq in Hj.
  rewrite in_band_upper. destruct (i <=? j)%nat; [|reflexivity].
  unfold pair_term, pd_entry. simpl. rewrite pd_sq_sq_euclid; [reflexivity|].
  destruct Sp as [Ln Sp]. rewrite List.Forall_forall in Sp. unfold row.
  rewrite !Sp; [reflexivity | apply nth_In; lia | apply nth_In; lia].
Qed.



(** There the only pair off the diagonal contributes [(2^2 - 1)^2]. *)
Example pairwise_loss_example : pairwise_loss 2 [[0; 2]; [2; 0]] [[0]; [1]] = 9.
Proof.
  rewrite (pairwise_loss_sum 2 1); [| lia | split; [reflexivity | repeat constructor] ..].
  unfold upper_pairs, pair_term, entry, row. simpl. field.
Qed.

Example pairwise_distances_example :
  entry (_pairwise_distances [[0; 0]; [3; 4]] true) 0 1 = 25.
Proof.
  rewrite pairwise_distances_entry. simpl. unfold pd_sq, row. simpl.
  rewrite Rmax_left by lra. ring.
Qed.


End LossesFacts.

(** ** Model *)
Module ModelFacts.
Import Py PyFacts Model Samples.

(** With at least one added token in the batch, a sample keeps its first
    and its last [m] positions. *)
Lemma select_equal_class_positive {E : Type} (m : Z) (embeddings : list E)
  (labels : list Z) :
  (0 < m <= Z.of_nat (length embeddings))%Z ->
  length labels = length embeddings ->
  select_equal_class m (embeddings, labels) =
    (firstn (Z.to_nat m) embeddings
       ++ skipn (length embeddings - Z.to_nat m) embeddings,
     firstn (Z.to_nat m) labels ++ skipn (length labels - Z.to_nat m) labels)
  /\ length (fst (select_equal_class m (embeddings, labels))) = (2 * Z.to_nat m)%nat.
Proof.
  intros Hm HL. unfold select_equal_class.
  rewrite !py_slice_prefix, !py_slice_suffix by lia.
  split; [reflexivity|]. simpl. rewrite length_app, length_firstn, length_skipn. lia.
Qed.

(** Without any added token the negated bound is [0], and the slice that
    should hold the last [0] positions holds the whole sample. *)
Lemma select_equal_class_zero {E : Type} (embeddings : list E) (labels : list Z) :
  select_equal_class 0 (embeddings, labels) = (embeddings, labels).
Proof.
  unfold select_equal_class.
  rewrite !py_slice_prefix, !py_slice_suffix_zero by lia. reflexivity.
Qed.

Lemma added_count_bounds (sample : list Z) :
  (0 <= reduce_sum_int (map (fun l => Z.b2z (l =? 1)%Z) sample)
     <= Z.of_nat (length sample))%Z.
Proof.
  induction sample as [|l sample IH]; simpl; [lia|].
  destruct (l =? 1)%Z; simpl Z.b2z; lia.
Qed.

Lemma reduce_max_int_le (l : list Z) (bound : Z) :
  (INT64_MIN <= bound)%Z -> Forall (fun x => (x <= bound)%Z) l ->
  (reduce_max_int l <= bound)%Z.
Proof.
  intros Hb H. induction H as [|x l Hx _ IH]; simpl; [exact Hb | lia].
Qed.

Lemma max_added_le (labels : list (list Z)) (L : nat) :
  Forall (fun sample => length sample = L) labels ->
  (max_added labels <= Z.of_nat L)%Z.
Proof.
  intros H. unfold max_added. apply reduce_max_int_le.
  - unfold INT64_MIN. lia.
  - apply List.Forall_map. eapply List.Forall_impl; [|exact H].
    intros sample <-. apply added_count_bounds.
Qed.

Lemma in_zip2_pair {A B : Type} (x : A) (y : B) l k :
  In (x, y) (Tensor.zip2 pair l k) -> In x l /\ In y k.
Proof.
  revert k. induction l as [|a l IH]; intros [|b k]; simpl; try tauto.
  intros [E | H]; [inversion E; auto | destruct (IH k H); auto].
Qed.

Lemma length_zip2 {A B C : Type} (f : A -> B -> C) l k :
  length (Tensor.zip2 f l k) = Nat.min (length l) (length k).
Proof.
  revert k. induction l as [|a l IH]; intros [|b k]; simpl; try reflexivity.
  now rewrite IH.
Qed.

Lemma train_step_labels_length tokens token_mask (L : nat) :
  Forall (fun r => length r = L) tokens ->
  Forall (fun r => length r = L) token_mask ->
  Forall (fun r => length r = L) (train_step_labels tokens token_mask).
Proof.
  unfold train_step_labels. intros Ht. revert token_mask.
  induction Ht as [|t tokens Hl _ IH]; intros [|m mask] Hm; simpl; constructor.
  - rewrite length_zip2, Hl. inversion Hm; subst. lia.
  - apply IH. now inversion Hm.
Qed.

(** Where the batch has an added token, every sample keeps its first and
    its last [max_added] positions, [2 * max_added] in all. *)
Lemma train_step_resample_positive {E : Type} (embeddings : list (list E))
  (tokens : list (list Z)) (token_mask : list (list bool)) (L : nat) :
  Forall (fun r => length r = L) embeddings ->
  Forall (fun r => length r = L) tokens ->
  Forall (fun r => length r = L) token_mask ->
  let m := max_added (train_step_labels tokens token_mask) in
  (1 <= m)%Z ->
  Forall (fun kept =>
            length (fst kept) = (2 * Z.to_nat m)%nat /\
            exists sample, In sample embeddings /\
              fst kept = firstn (Z.to_nat m) sample
                         ++ skipn (L - Z.to_nat m) sample)
         (train_step_resample embeddings tokens token_mask).
Proof.
  intros He Ht Hm m Hpos. unfold train_step_resample. fold m.
  pose proof (train_step_labels_length tokens token_mask L Ht Hm) as Hl.
  pose proof (max_added_le _ L Hl) as Hle. fold m in Hle.
  apply List.Forall_map, List.Forall_forall. intros [e l] Hin.
  apply in_zip2_pair in Hin as [Hine Hinl].
  rewrite List.Forall_forall in He, Hl.
  pose proof (He e Hine) as Le. pose proof (Hl l Hinl) as Ll.
  destruct (select_equal_class_positive m e l) as [Eq Len];
    [lia | congruence |].
  split; [exact Len|]. exists e. split; [exact Hine|].
  rewrite Eq. simpl. now rewrite Le.
Qed.

(** C3, at a batch without added tokens: [max_added] is 0, and the sample
    keeps its three positions where [2 * max_added = 0] were to be kept. *)
Theorem train_step_resample_without_added_tokens :
  let tokens := [[5; 7; 0]]%Z in
  let token_mask := [[true; true; false]] in
  train_step_labels tokens token_mask = [[2; 2; 0]]%Z /\
  max_added (train_step_labels tokens token_mask) = 0%Z /\
  train_step_resample [[0; 1; 2]%nat] tokens token_mask
    = [([0; 1; 2]%nat, [2; 2; 0]%Z)].
Proof. repeat split; reflexivity. Qed.

Section MeanAbsoluteErrorFacts.
Context {input : Type} (call_regression : input -> list R) (mean std : R).

Local Abbreviation mae_batch := (mae_batch call_regression mean std).
Local Abbreviation mae_loop := (mae_loop call_regression mean std).
Local Abbreviation mean_absolute_error := (mean_absolute_error call_regression mean std).
Local Abbreviation batch_abs_error := (batch_abs_error call_regression mean std).

(** The counter starts as an [int64] tensor and [tf.shape] yields [int32]:
    no batch gets past the update of the counter. *)
Lemma mae_batch_int64_raises (mae : R) (c : Z) (batch : input * list R) :
  exists e, mae_batch (mae, IntScalar int64 c) batch = Raise e.
Proof.
  destruct batch as [x reg_out]. unfold Model.mae_batch.
  destruct (squeezed_map _ (tf_squeeze (call_regression x))) as [s|v]; simpl;
    eexists; reflexivity.
Qed.

(** Every dataset that holds a batch raises. *)
Lemma mean_absolute_error_raises (batch : input * list R)
  (rest : list (input * list R)) :
  exists e, mean_absolute_error (batch :: rest) = Raise e.
Proof.
  destruct (mae_batch_int64_raises 0 0 batch) as [e He]. exists e.
  unfold Model.mean_absolute_error.
  change (mae_loop (0, IntScalar int64 0) (batch :: rest))
    with (mae_batch (0, IntScalar int64 0) batch ≫= (fun acc => mae_loop acc rest)).
  rewrite He. reflexivity.
Qed.

Lemma tf_squeeze_vector (t : list R) : length t <> 1%nat -> tf_squeeze t = Vector t.
Proof. destruct t as [|x [|y t]]; simpl; intros H; try reflexivity. contradiction. Qed.

Lemma abs_zip2_affine (u v : list R) :
  map Rabs (Tensor.zip2 Rminus (map (fun y => y * std + mean) u)
                               (map (fun y => y * std + mean) v)) =
  Tensor.zip2 (fun t p => Rabs ((t * std + mean) - (p * std + mean))) u v.
Proof.
  revert v. induction u as [|a u IH]; intros [|b v]; simpl; try reflexivity.
  now rewrite IH.
Qed.

(** Had the counter the dtype of [tf.shape], the loop would accumulate the
    absolute errors and the sample count of batches of two or more. *)
Lemma mae_loop_int32 (dataset : list (input * list R)) (mae : R) (c : Z) :
  Forall (fun b => length (call_regression (fst b)) <> 1%nat /\
                   length (snd b) <> 1%nat) dataset ->
  mae_loop (mae, IntScalar int32 c) dataset =
  Ok (mae + Tensor.sum_list (map batch_abs_error dataset),
      IntScalar int32
        (c + Z.of_nat (length (concat (map (fun b => call_regression (fst b)) dataset))))).
Proof.
  revert mae c. induction dataset as [|[x y] ds IH]; intros mae c HF; simpl.
  - now rewrite Rplus_0_r, Z.add_0_r.
  - apply List.Forall_cons_iff in HF as [[Hp Ht] HF]. simpl in Hp, Ht.
    unfold Model.mae_batch.
    rewrite (tf_squeeze_vector _ Hp), (tf_squeeze_vector _ Ht). simpl.
    rewrite length_map, abs_zip2_affine, IH by assumption.
    unfold Model.batch_abs_error at 2. simpl.
    rewrite length_app, Nat2Z.inj_add, Rplus_assoc, Z.add_assoc. reflexivity.
Qed.

End MeanAbsoluteErrorFacts.

Section SerializationFacts.
Context {pyval : Type} (serialize deserialize : pyval -> pyval)
        (base_get_config : gmap string pyval -> gmap string pyval).

Local Abbreviation get_config := (get_config serialize base_get_config).
Local Abbreviation from_config := (from_config deserialize).

(** C6: [from_config (get_config m)] builds a model with the [mean] and
    [std] of [m] and with each component deserialized from its
    serialization; where deserialization undoes serialization the five
    configuration fields are those of [m]. *)
Theorem from_config_get_config (m : AttentionRegression pyval) :
  exists m', from_config (get_config m) = Ok m' /\
    mean m' = mean m /\ std m' = std m /\
    feature_emb m' = deserialize (serialize (feature_emb m)) /\
    binary_loadings m' = deserialize (serialize (binary_loadings m)) /\
    regressor m' = deserialize (serialize (regressor m)) /\
    ((forall v, deserialize (serialize v) = v) ->
     mean m' = mean m /\ std m' = std m /\ feature_emb m' = feature_emb m /\
     binary_loadings m' = binary_loadings m /\ regressor m' = regressor m).
Proof.
  unfold Model.from_config, Model.get_config, getitem, Model.cls, required.
  set (base := base_get_config (kwargs m)).
  repeat (first [ rewrite lookup_insert_eq
                | rewrite lookup_insert_ne by discriminate
                | erewrite lookup_union_Some_l by (by simplify_map_eq) ];
          simpl).
  eexists. split; [reflexivity|]. simpl.
  do 5 (split; [reflexivity|]). intros Hrt. rewrite !Hrt. repeat split.
Qed.

End SerializationFacts.

(** C9, at one batch of two samples with absolute errors 1 and 2: the call
    raises at the update of the counter, where [2 * sum / count] is 3. *)
Theorem mean_absolute_error_two_samples :
  let call_regression := fun _ : unit => [1; 3] in
  let dataset := [(tt, [2; 5])] in
  mean_absolute_error call_regression 0 1 dataset
    = Raise (InvalidArgumentError "cannot compute AddV2: operand dtypes differ") /\
  2 * Tensor.sum_list (map (batch_abs_error call_regression 0 1) dataset) / 2 = 3.
Proof.
  split; [reflexivity|]. unfold batch_abs_error. simpl.
  replace (2 * 1 + 0 - (1 * 1 + 0)) with 1 by ring.
  replace (5 * 1 + 0 - (3 * 1 + 0)) with 2 by ring.
  rewrite !Rabs_right by lra. lra.
Qed.

(** A batch of one sample is squeezed to a scalar, whose shape has no axis 0. *)
Example mean_absolute_error_one_sample :
  mean_absolute_error (fun _ : unit => [1]) 0 1 [(tt, [2])]
  = Raise (InvalidArgumentError "slice index 0 of dimension 0 out of bounds").
Proof. reflexivity. Qed.

Example mean_absolute_error_empty :
  mean_absolute_error (fun _ : unit => []) 0 1 [] = Ok ((0 + 0) / 0).
Proof. reflexivity. Qed.

(** C6 at a model whose components are numbers, serialized by [S]. *)
Lemma from_config_get_config_witness :
  exists m', from_config Nat.pred (get_config S (fun _ => ∅) model0) = Ok m' /\
    mean m' = 30%nat /\ std m' = 12%nat /\ feature_emb m' = 1%nat /\
    binary_loadings m' = 2%nat /\ regressor m' = 3%nat.
Proof.
  destruct (from_config_get_config S Nat.pred (fun _ => ∅) model0)
    as (m' & E & _ & _ & _ & _ & _ & H).
  exists m'. split; [exact E|]. apply H. intros v. reflexivity.
Defined.

End ModelFacts.

(** ** Callbacks *)
Module CallbacksFacts.
Import Py PyFacts Tensor TensorFacts Losses LossesFacts Callbacks Samples.

Lemma every_fifth_cons k n :
  every_fifth k (S n) =
  if Nat.eqb (k mod 5) 0 then k :: every_fifth (S k) n else every_fifth (S k) n.
Proof. unfold every_fifth. simpl. now destruct (Nat.eqb (k mod 5) 0). Qed.

Lemma mod5_nat_Z (k : nat) : (Z.of_nat k mod 5)%Z = 0%Z <-> (k mod 5)%nat = 0%nat.
Proof. rewrite <- (Nat2Z.inj_iff (k mod 5) 0), Nat2Z.inj_mod. reflexivity. Qed.

Lemma counter_inv_fires k c :
  counter_inv k c -> (c mod 5 =? 0)%Z = Nat.eqb (k mod 5) 0.
Proof.
  intros [E _]. rewrite E.
  destruct (Z.eqb_spec (Z.of_nat k mod 5) 0) as [H|H];
    destruct (Nat.eqb_spec (k mod 5) 0) as [H'|H']; try reflexivity;
    apply mod5_nat_Z in H || apply mod5_nat_Z in H'; contradiction.
Qed.

Lemma counter_inv_next k c :
  counter_inv k c ->
  counter_inv (S k) ((if (c mod 5 =? 0)%Z then 0 else c) + 1)%Z.
Proof.
  intros [E B]. unfold counter_inv. rewrite Nat2Z.inj_succ.
  unfold Z.succ. rewrite (Z.add_mod (Z.of_nat k) 1 5), <- E by lia.
  destruct (Z.eqb_spec (c mod 5) 0) as [H|H].
  - rewrite H. split; [reflexivity | lia].
  - rewrite <- Z.add_mod by lia. split; [reflexivity|].
    assert (c <> 5)%Z by (intros ->; apply H; reflexivity). lia.
Qed.

Lemma counter_inv_init : counter_inv 0 0.
Proof. split; [reflexivity | lia]. Qed.

(** *** [MAE_Scatter] *)

Lemma MAE_Scatter_step (self : MAE_Scatter) (epoch : Z) :
  let fires := (ms_cur_step self mod 5 =? 0)%Z in
  ms_cur_step (fst (MAE_Scatter_on_epoch_end self epoch))
    = ((if fires then 0 else ms_cur_step self) + 1)%Z /\
  snd (MAE_Scatter_on_epoch_end self epoch)
    = (if fires
       then [ScatterModelSave (ms_model_path self);
             ScatterFigure (ms_figure_path self) (ms_title self)
                           (ms_total_mae self + 1) (ms_s_type self)]
       else []) /\
  length (snd (MAE_Scatter_on_epoch_end self epoch)) = (if fires then 2 else 0)%nat.
Proof.
  unfold MAE_Scatter_on_epoch_end.
  destruct (ms_cur_step self mod 5 =? 0)%Z; simpl; repeat split; reflexivity.
Qed.

Lemma MAE_Scatter_run_logs n : forall self k,
  counter_inv k (ms_cur_step self) ->
  logging_epochs (snd (MAE_Scatter_run self k n)) = every_fifth k n.
Proof.
  induction n as [|n IH]; intros self k Hinv; [reflexivity|].
  rewrite every_fifth_cons, <- (counter_inv_fires k _ Hinv).
  pose proof (MAE_Scatter_step self (Z.of_nat k)) as (Hc & _ & Hl).
  pose proof (counter_inv_next k _ Hinv) as Hnext.
  simpl. destruct (MAE_Scatter_on_epoch_end self (Z.of_nat k)) as [s1 ev] eqn:E1.
  simpl in Hc, Hl. rewrite <- Hc in Hnext. specialize (IH s1 (S k) Hnext).
  destruct (MAE_Scatter_run s1 (S k) n) as [s2 log]. simpl in IH |- *.
  unfold logging_epochs. simpl. rewrite Hl.
  destruct (ms_cur_step self mod 5 =? 0)%Z; simpl;
    fold (logging_epochs log); now rewrite IH.
Qed.

(** *** [ProjectEncoder] *)
Section PeriodFacts.
Context {ordination : Type} (pcoa : distance_matrix -> nat -> ordination)
        (unweighted : string -> string -> distance_matrix)
        (dm_filter : distance_matrix -> list string -> distance_matrix).

Local Abbreviation _log_epoch_data := (_log_epoch_data pcoa unweighted dm_filter).
Local Abbreviation on_epoch_end := (ProjectEncoder_on_epoch_end pcoa unweighted dm_filter).
Local Abbreviation run := (ProjectEncoder_run pcoa unweighted dm_filter).






End PeriodFacts.

Lemma total_samples_of_multiple (n bs : Z) :
  (0 <= n)%Z -> (0 < bs)%Z ->
  exists t, total_samples_of n bs = Ok t /\
            (bs | t)%Z /\ (0 <= t)%Z /\ (t <= n < t + bs)%Z.
Proof.
  intros Hn Hb. unfold total_samples_of.
  destruct (Z.eqb_spec bs 0); [lia|]. rewrite py_int_ratio by assumption.
  eexists. split; [reflexivity|].
  pose proof (Z.div_mod n bs ltac:(lia)) as E.
  pose proof (Z.mod_pos_bound n bs Hb) as B.
  pose proof (Z.div_pos n bs Hn Hb) as P.
  split; [exists (n / bs)%Z; reflexivity|]. nia.
Qed.






Section OrdinationFacts.
Context {ordination : Type} (pcoa : distance_matrix -> nat -> ordination)
        (unweighted : string -> string -> distance_matrix)
        (dm_filter : distance_matrix -> list string -> distance_matrix).

Local Abbreviation _log_epoch_data := (_log_epoch_data pcoa unweighted dm_filter).


End OrdinationFacts.



End CallbacksFacts.

(** ** Train and validation split *)
Module TransferLearningFacts.
Import Py PyFacts TransferLearning.



Lemma ds_take_skip {A : Type} (n : Z) (ds : list A) : ds_take n ds ++ ds_skip n ds = ds.
Proof.
  unfold ds_take, ds_skip. destruct (n <? 0)%Z; [apply app_nil_r | apply firstn_skipn].
Qed.




End TransferLearningFacts.

(** * Further properties of the sources *)

(** ** The residual losses and [mae_loss] *)
Module ResidualLossesFacts.
Import Tensor TensorFacts Losses LossesFacts ResidualLosses.



Lemma residuals_nil : residuals [] = [].
Proof. reflexivity. Qed.






























(** *** [mae_loss] *)







End ResidualLossesFacts.

(** ** The distance matrix as a metric, and [pairwise_loss] *)
Module DistanceFacts.
Import Tensor TensorFacts Losses LossesFacts ResidualLosses ResidualLossesFacts.








(** *** The triangle inequality *)
















End DistanceFacts.

(** ** Labels, resampling and the configuration dictionary *)
Module ModelMoreFacts.
Import Py PyFacts Tensor Model ModelFacts Confidence Samples.

(** X9: The labels of [train_step] and the classes of [feature_confidences]
    agree on every token but a masked token that is not positive: there
    [train_step] says 1 (added) and [feature_confidences] says 0. *)
Theorem labels_and_confidence_classes (token : Z) (mask : bool) :
  (confidence_class token mask = token_label token mask
   <-> ~ ((token <= 0)%Z /\ mask = true)) /\
  ((token <= 0)%Z -> mask = true ->
   token_label token mask = 1%Z /\ confidence_class token mask = 0%Z) /\
  (confidence_class token mask = class_labels class_true
   <-> (0 < token)%Z /\ mask = true) /\
  (confidence_class token mask = class_labels class_added
   <-> (0 < token)%Z /\ mask = false).
Proof.
  unfold confidence_class, token_label, class_labels.
  destruct (Z.ltb_spec 0 token), mask; simpl; repeat split;
    try lia; try discriminate; try (intros; lia);
    try (intros H'; exfalso; apply H'; split; [lia | reflexivity]);
    try (intros [? ?]; discriminate || lia).
Qed.

(** X9 at the masked token 0. *)
Lemma labels_and_confidence_classes_witness :
  token_label 0 true = 1%Z /\ confidence_class 0 true = 0%Z.
Proof.
  apply (proj1 (proj2 (labels_and_confidence_classes 0 true)));
    [lia | reflexivity].
Defined.

Lemma max_added_cons (sample : list Z) (labels : list (list Z)) :
  max_added (sample :: labels) = Z.max (added_count sample) (max_added labels).
Proof. reflexivity. Qed.

Lemma max_added_upper (labels : list (list Z)) (sample : list Z) :
  In sample labels -> (added_count sample <= max_added labels)%Z.
Proof.
  induction labels as [|s labels IH]; intros []; rewrite max_added_cons.
  - subst. lia.
  - specialize (IH H). lia.
Qed.

Lemma max_added_attained (labels : list (list Z)) :
  labels <> [] -> exists sample, In sample labels /\ added_count sample = max_added labels.
Proof.
  induction labels as [|s labels IH]; [congruence|]. intros _.
  rewrite max_added_cons. destruct labels as [|s' labels].
  - exists s. split; [simpl; auto|]. unfold max_added at 1. simpl.
    pose proof (added_count_bounds s). unfold added_count, INT64_MIN. lia.
  - destruct (IH ltac:(discriminate)) as (w & Hw & Ew).
    destruct (Z.le_ge_cases (added_count s) (max_added (s' :: labels))).
    + exists w. split; [simpl in *; tauto | lia].
    + exists s. split; [simpl; auto | lia].
Qed.

(** X10: [max_added] of a batch with samples is the largest number of added
    tokens of a sample, between 0 and the sample length; of an empty
    batch it is the least [int64]. *)
Theorem max_added_is_maximum (labels : list (list Z)) (L : nat) :
  Forall (fun sample => length sample = L) labels ->
  max_added [] = (- 2 ^ 63)%Z /\
  (labels <> [] ->
   (0 <= max_added labels <= Z.of_nat L)%Z /\
   (forall sample, In sample labels -> (added_count sample <= max_added labels)%Z) /\
   (exists sample, In sample labels /\ added_count sample = max_added labels)).
Proof.
  intros HL. split; [reflexivity|]. intros Hne.
  destruct (max_added_attained labels Hne) as (w & Hw & Ew).
  split; [|split].
  - split; [|now apply max_added_le].
    rewrite <- Ew. apply added_count_bounds.
  - intros sample. apply max_added_upper.
  - exists w. auto.
Qed.

(** X10 at two samples with two and one added tokens. *)
Lemma max_added_is_maximum_witness :
  (0 <= max_added [[2; 1; 1]; [2; 2; 1]]%Z <= 3)%Z /\
  (forall sample, In sample [[2; 1; 1]; [2; 2; 1]]%Z ->
     (added_count sample <= max_added [[2; 1; 1]; [2; 2; 1]]%Z)%Z) /\
  (exists sample, In sample [[2; 1; 1]; [2; 2; 1]]%Z /\
     added_count sample = max_added [[2; 1; 1]; [2; 2; 1]]%Z).
Proof.
  apply (proj2 (max_added_is_maximum [[2; 1; 1]; [2; 2; 1]]%Z 3
                  ltac:(repeat constructor))).
  discriminate.
Defined.

(** X11: On a sample of [L] tokens and [0 < m <= L] the positions kept are
    [0 .. m-1] followed by [L-m .. L-1]; no position is kept twice exactly
    when [2 * m <= L]. *)
Theorem select_equal_class_positions (m L : nat) (labels : list Z) :
  (0 < m <= L)%nat -> length labels = L ->
  fst (select_equal_class (Z.of_nat m) (seq 0 L, labels))
    = seq 0 m ++ seq (L - m) m /\
  (List.NoDup (fst (select_equal_class (Z.of_nat m) (seq 0 L, labels)))
   <-> (2 * m <= L)%nat).
Proof.
  intros Hm HL.
  destruct (select_equal_class_positive (Z.of_nat m) (seq 0 L) labels) as [E _];
    [rewrite length_seq; lia | now rewrite length_seq |].
  rewrite E. cbn [fst]. rewrite Nat2Z.id, length_seq.
  rewrite take_seq, skipn_seq. replace (Nat.min m L) with m by lia.
  replace (0 + (L - m))%nat with (L - m)%nat by lia.
  replace (L - (L - m))%nat with m by lia.
  split; [reflexivity|]. split.
  - intros ND. destruct (Nat.le_gt_cases (2 * m) L) as [|G]; [assumption|].
    exfalso. assert (I1 : In (L - m)%nat (seq 0 m)) by (apply in_seq; lia).
    assert (I2 : In (L - m)%nat (seq (L - m) m)) by (apply in_seq; lia).
    apply in_split in I2 as (l1 & l2 & E2). rewrite E2, app_assoc in ND.
    apply NoDup_remove_2 in ND. apply ND. apply in_or_app. left.
    apply in_or_app. now left.
  - intros H. apply List.NoDup_app; try apply seq_NoDup.
    intros a Ha Hb. apply in_seq in Ha, Hb. lia.
Qed.

(** X11 at three tokens and two added ones: position 1 is kept twice. *)
Lemma select_equal_class_positions_witness :
  fst (select_equal_class 2 ([0; 1; 2]%nat, [2; 1; 1]%Z))
    = ([0; 1] ++ [1; 2])%nat /\
  (List.NoDup (fst (select_equal_class 2 ([0; 1; 2]%nat, [2; 1; 1]%Z)))
   <-> (2 * 2 <= 3)%nat).
Proof.
  apply (select_equal_class_positions 2 3 [2; 1; 1]%Z); [lia | reflexivity].
Defined.


Section SerializationFacts2.
Context {pyval : Type} (serialize deserialize : pyval -> pyval)
        (base_get_config : gmap string pyval -> gmap string pyval).

Local Abbreviation get_config := (get_config serialize base_get_config).
Local Abbreviation from_config := (from_config deserialize).


(** X13: The rebuilt model is constructed with the base configuration of the
    original as its keyword arguments, without the five field keys. *)
Theorem from_config_keeps_base_config (m : AttentionRegression pyval) (key : string) :
  exists m', from_config (get_config m) = Ok m' /\
    kwargs m' !! key =
      if bool_decide (key ∈ ["mean"; "std"; "feature_emb"; "binary_loadings";
                             "regressor"])
      then None
      else base_get_config (kwargs m) !! key.
Proof.
  unfold Model.from_config, Model.get_config, getitem, Model.cls, required.
  set (base := base_get_config (kwargs m)).
  repeat (first [ rewrite lookup_insert_eq
                | rewrite lookup_insert_ne by discriminate
                | erewrite lookup_union_Some_l by (by simplify_map_eq) ];
          simpl).
  eexists. split; [reflexivity|]. simpl.
  case_bool_decide as Hk.
  - repeat (apply elem_of_cons in Hk as [->|Hk];
            [ by simplify_map_eq |]).
    by apply elem_of_nil in Hk.
  - repeat (rewrite not_elem_of_cons in Hk; destruct Hk as [? Hk]).
    rewrite !lookup_delete_ne, !lookup_insert_ne by congruence.
    rewrite lookup_union_r; [reflexivity|].
    by rewrite !lookup_insert_ne by congruence.
Qed.

End SerializationFacts2.


End ModelMoreFacts.

(** ** [feature_confidences]: what a token id collects *)
Module ConfidenceFacts.
Import Py PyFacts Tensor Model ModelFacts Confidence.

Lemma nth_insert (l : list R) (k t : nat) (x : R) :
  (k < length l)%nat ->
  nth t (<[k := x]> l) 0 = if Nat.eqb t k then x else nth t l 0.
Proof.
  revert k t. induction l as [|y l IH]; intros k t Hk; simpl in Hk; [lia|].
  destruct k as [|k]; destruct t as [|t]; simpl; try reflexivity.
  apply IH. lia.
Qed.

Lemma scatter_add_spec (iu : list (Z * R)) : forall out : list R,
  Forall (fun p => (0 <= fst p < Z.of_nat (length out))%Z) iu ->
  exists v, scatter_add out iu = Ok v /\ length v = length out /\
            forall t, nth t v 0 = nth t out 0 + sum_list (map (hits t) iu).
Proof.
  induction iu as [|[i u] iu IH]; intros out HF; simpl.
  - exists out. repeat split. intros t. ring.
  - apply List.Forall_cons_iff in HF as [Hi HF]. simpl in Hi.
    destruct (Z.leb_spec 0 i); [|lia].
    destruct (Z.ltb_spec i (Z.of_nat (length out))); [|lia]. simpl.
    set (out' := <[Z.to_nat i := nth (Z.to_nat i) out 0 + u]> out).
    assert (L' : length out' = length out) by apply length_insert.
    destruct (IH out') as (v & E & Lv & Hv).
    { rewrite L'. exact HF. }
    exists v. split; [exact E|]. split; [congruence|]. intros t.
    rewrite Hv. unfold out'. rewrite nth_insert by lia.
    assert (Hh : hits t (i, u) = if Nat.eqb t (Z.to_nat i) then u else 0).
    { unfold hits. cbn [fst snd].
      destruct (Nat.eqb_spec t (Z.to_nat i)) as [->|N].
      - rewrite Z2Nat.id by lia. now rewrite Z.eqb_refl.
      - destruct (Z.eqb_spec i (Z.of_nat t)) as [->|_]; [|reflexivity].
        rewrite Nat2Z.id in N. contradiction. }
    rewrite Hh. cbn [map sum_list].
    destruct (Nat.eqb_spec t (Z.to_nat i)) as [E'|_]; [rewrite <- E'|]; ring.
Qed.

Lemma nth_repeat_zero (n t : nat) : nth t (repeat 0 n) 0 = 0.
Proof. revert t. induction n; intros [|t]; simpl; auto. Qed.

Lemma nth_zip2_plus (a b : list R) (t : nat) :
  length a = length b ->
  nth t (zip2 Rplus a b) 0 = nth t a 0 + nth t b 0.
Proof.
  revert b t. induction a as [|x a IH]; intros [|y b] t L; simpl in *; try lia.
  - destruct t; ring.
  - destruct t; [reflexivity|]. apply IH. lia.
Qed.

Lemma sum_rows_spec (n : nat) (rows : list (list R)) :
  Forall (fun r => length r = n) rows ->
  length (sum_rows n rows) = n /\
  forall t, nth t (sum_rows n rows) 0 = sum_list (map (fun r => nth t r 0) rows).
Proof.
  induction 1 as [|r rows Hr _ [IL IH]]; simpl.
  - split; [apply repeat_length | apply nth_repeat_zero].
  - fold (sum_rows n rows). split.
    + rewrite ModelFacts.length_zip2. lia.
    + intros t. rewrite nth_zip2_plus by congruence. now rewrite IH.
Qed.

(** One sample: the indices and updates handed to [scatter_nd]. *)
Lemma sample_scatter (c : class_name) (total : nat) :
  forall (toks : list Z) (mask : list bool) (values : list R),
  Forall (fun t => (0 <= t < Z.of_nat total)%Z) toks ->
  let cls_mask := map (fun k => (k =? class_labels c)%Z)
                      (zip2 confidence_class toks mask) in
  exists v,
    scatter_nd (zip2 (fun t (m : bool) => (t * Z.b2z m)%Z) toks cls_mask)
               (zip2 (fun x m => x * bool_to_float m) values cls_mask) total
      = Ok v /\
    length v = total /\
    forall t, nth t v 0 = sample_mass c (Z.of_nat t) toks mask values.
Proof.
  intros toks mask values HF cls_mask. unfold scatter_nd.
  destruct (scatter_add_spec
              (zip2 pair (zip2 (fun t (m : bool) => (t * Z.b2z m)%Z) toks cls_mask)
                         (zip2 (fun x m => x * bool_to_float m) values cls_mask))
              (repeat 0 total)) as (v & E & Lv & Hv).
  { rewrite repeat_length. unfold cls_mask. clear cls_mask.
    revert mask values. induction HF as [|t toks Ht _ IH]; intros [|m mask] [|x values];
      simpl; try constructor.
    - simpl. destruct (confidence_class t m =? class_labels c)%Z; simpl; lia.
    - apply IH. }
  exists v. split; [exact E|]. split; [now rewrite Lv, repeat_length|].
  intros t. rewrite Hv, nth_repeat_zero, Rplus_0_l.
  unfold sample_mass, cls_mask. clear. revert mask values.
  induction toks as [|tk toks IH]; intros [|m mask] [|x values]; simpl;
    try reflexivity.
  rewrite IH. f_equal. unfold hits. cbn [fst snd].
  destruct (confidence_class tk m =? class_labels c)%Z eqn:Ec; simpl.
  - rewrite Z.mul_1_r, Rmult_1_r. reflexivity.
  - rewrite Z.mul_0_r, Rmult_0_r. now destruct (0 =? Z.of_nat t)%Z.
Qed.

Lemma sample_mass_zero (c : class_name) (toks : list Z) (mask : list bool)
  (values : list R) : sample_mass c 0 toks mask values = 0.
Proof.
  unfold sample_mass. revert mask values.
  induction toks as [|tk toks IH]; intros [|m mask] [|x values]; simpl;
    try reflexivity.
  rewrite IH.
  destruct ((confidence_class tk m =? class_labels c)%Z && (tk =? 0)%Z) eqn:E;
    [|ring].
  apply andb_true_iff in E as [E1 E2]. apply Z.eqb_eq in E1, E2. subst tk.
  unfold confidence_class in E1. simpl in E1. rewrite Z.mul_0_r in E1.
  destruct c; discriminate.
Qed.

Lemma batch_mass_zero (c : class_name) (tokens : list (list Z))
  (token_mask : list (list bool)) (batch_tensor : tensor2) :
  batch_mass c 0 tokens token_mask batch_tensor = 0.
Proof.
  unfold batch_mass. revert token_mask batch_tensor.
  induction tokens as [|toks tokens IH]; intros [|mask token_mask] [|values X];
    simpl; try reflexivity.
  rewrite IH, sample_mass_zero. ring.
Qed.

(** X14: For a batch whose tokens are ids below [total_tokens], [map_to_tokens]
    returns a vector of [total_tokens] entries; entry [t] is the sum of the
    values at the positions of the class that hold token [t], and entry 0
    is 0. *)
Theorem map_to_tokens_mass (c : class_name) (total_tokens : nat)
  (tokens : list (list Z)) (token_mask : list (list bool))
  (batch_tensor : tensor2) :
  Forall2 (fun r m => length r = length m) tokens token_mask ->
  Forall2 (fun r x => length r = length x) tokens batch_tensor ->
  Forall (Forall (fun t => (0 <= t < Z.of_nat total_tokens)%Z)) tokens ->
  let masks := _process_class_masks tokens token_mask c in
  exists v,
    map_to_tokens total_tokens (fst masks) (snd masks) batch_tensor = Ok v /\
    length v = total_tokens /\
    (forall t, nth t v 0 = batch_mass c (Z.of_nat t) tokens token_mask batch_tensor) /\
    nth 0 v 0 = 0.
Proof.
  intros _ _ HF masks. unfold map_to_tokens, masks, _process_class_masks. cbn [fst snd].
  assert (G : exists rows,
    map_result (fun inputs => scatter_nd (snd inputs) (fst inputs) total_tokens)
      (zip2 pair
         (zip2 (zip2 (fun x m => x * bool_to_float m)) batch_tensor
            (map (map (fun k => (k =? class_labels c)%Z))
                 (zip2 (zip2 confidence_class) tokens token_mask)))
         (zip2 (zip2 (fun t (m : bool) => (t * Z.b2z m)%Z)) tokens
            (map (map (fun k => (k =? class_labels c)%Z))
                 (zip2 (zip2 confidence_class) tokens token_mask))))
      = Ok rows /\
    Forall (fun r => length r = total_tokens) rows /\
    forall t, sum_list (map (fun r => nth t r 0) rows)
              = batch_mass c (Z.of_nat t) tokens token_mask batch_tensor).
  { clear masks. revert token_mask batch_tensor.
    induction HF as [|toks tokens Ht _ IH]; intros [|mask token_mask] [|values X];
      try (exists []; repeat split; constructor).
    destruct (sample_scatter c total_tokens toks mask values Ht) as (v & Ev & Lv & Hv).
    destruct (IH token_mask X) as (rows & Er & Lr & Hr).
    exists (v :: rows). simpl. simpl in Ev. rewrite Ev. simpl. rewrite Er. simpl.
    split; [reflexivity|]. split; [now constructor|].
    intros t. unfold batch_mass. simpl. fold (batch_mass c (Z.of_nat t) tokens token_mask X).
    now rewrite Hv, Hr. }
  destruct G as (rows & Er & Lr & Hr). rewrite Er. simpl.
  destruct (sum_rows_spec total_tokens rows Lr) as [Ls Hs].
  exists (sum_rows total_tokens rows). split; [reflexivity|]. split; [exact Ls|].
  assert (F : forall t, nth t (sum_rows total_tokens rows) 0
                        = batch_mass c (Z.of_nat t) tokens token_mask batch_tensor).
  { intros t. now rewrite Hs, Hr. }
  split; [exact F|]. rewrite F. apply batch_mass_zero.
Qed.

(** X14 at one sample of three tokens and four token ids. *)
Lemma map_to_tokens_mass_witness :
  exists v,
    map_to_tokens 4
      (fst (_process_class_masks [[1; 3; 0]]%Z [[true; false; false]] class_added))
      (snd (_process_class_masks [[1; 3; 0]]%Z [[true; false; false]] class_added))
      [[5; 7; 9]] = Ok v /\
    length v = 4%nat /\
    (forall t, nth t v 0
               = batch_mass class_added (Z.of_nat t) [[1; 3; 0]]%Z
                            [[true; false; false]] [[5; 7; 9]]) /\
    nth 0 v 0 = 0.
Proof.
  apply (map_to_tokens_mass class_added 4 [[1; 3; 0]]%Z [[true; false; false]]
                            [[5; 7; 9]]).
  - repeat constructor.
  - repeat constructor.
  - repeat constructor; lia.
Defined.

End ConfidenceFacts.

(** ** Runs of the callbacks *)
Module CallbackRunFacts.
Import Py PyFacts Tensor Callbacks CallbacksFacts CallbackRuns Samples.

Lemma count_from_succ (first : Z) (count : nat) :
  count_from first (S count) = (first + 1)%Z :: count_from (first + 1) count.
Proof.
  unfold count_from. simpl. f_equal. rewrite <- seq_shift, map_map.
  apply map_ext. intros i. lia.
Qed.

Lemma MAE_Scatter_call (self : MAE_Scatter) (epoch : Z) :
  MAE_Scatter_on_epoch_end self epoch =
  if (ms_cur_step self mod 5 =? 0)%Z
  then (ms_set_cur_step 1 (ms_set_total_mae (ms_total_mae self + 1) self),
        [ScatterModelSave (ms_model_path self);
         ScatterFigure (ms_figure_path self) (ms_title self)
                       (ms_total_mae self + 1) (ms_s_type self)])
  else (ms_set_cur_step (ms_cur_step self + 1) self, []).
Proof.
  unfold MAE_Scatter_on_epoch_end. destruct (ms_cur_step self mod 5 =? 0)%Z; reflexivity.
Qed.

Lemma MAE_Scatter_run_files n : forall self k,
  counter_inv k (ms_cur_step self) ->
  let r := MAE_Scatter_run self k n in
  let logs := length (every_fifth k n) in
  counter_inv (k + n) (ms_cur_step (fst r)) /\
  ((1 <= ms_cur_step self)%Z \/ (0 < n)%nat -> (1 <= ms_cur_step (fst r))%Z) /\
  ms_total_mae (fst r) = (ms_total_mae self + Z.of_nat logs)%Z /\
  figure_indices (snd r) = count_from (ms_total_mae self) logs /\
  saved_paths (snd r) = repeat (ms_model_path self) logs.
Proof.
  induction n as [|n IH]; intros self k Hinv; cbv zeta.
  - cbn [MAE_Scatter_run fst snd]. rewrite Nat.add_0_r.
    split; [exact Hinv|]. split; [intros [H|H]; [exact H | lia]|].
    split; [simpl; lia|]. split; reflexivity.
  - rewrite every_fifth_cons, <- (counter_inv_fires k _ Hinv).
    pose proof (counter_inv_next k _ Hinv) as Hnext.
    cbn [MAE_Scatter_run]. rewrite MAE_Scatter_call.
    replace (k + S n)%nat with (S k + n)%nat by lia.
    destruct (ms_cur_step self mod 5 =? 0)%Z eqn:Ef.
    + set (s1 := ms_set_cur_step 1 (ms_set_total_mae (ms_total_mae self + 1) self)).
      specialize (IH s1 (S k) Hnext). cbv zeta in IH.
      destruct (MAE_Scatter_run s1 (S k) n) as [s2 log].
      destruct IH as (I1 & I2 & I3 & I4 & I5). cbn [fst snd] in *.
      split; [exact I1|]. split; [intros _; apply I2; left; simpl; lia|].
      split; [rewrite I3; cbn [length]; simpl; lia|]. split.
      * unfold figure_indices. cbn [flat_map snd app length]. fold (figure_indices log).
        rewrite I4, count_from_succ. reflexivity.
      * unfold saved_paths. cbn [flat_map snd app length]. fold (saved_paths log).
        rewrite I5. reflexivity.
    + set (s1 := ms_set_cur_step (ms_cur_step self + 1) self).
      specialize (IH s1 (S k) Hnext). cbv zeta in IH.
      destruct (MAE_Scatter_run s1 (S k) n) as [s2 log].
      destruct IH as (I1 & I2 & I3 & I4 & I5). cbn [fst snd] in *.
      split; [exact I1|]. split.
      { intros _. apply I2. left. simpl. destruct Hinv as [_ ?]. lia. }
      split; [exact I3|]. split.
      * unfold figure_indices. cbn [flat_map snd app]. fold (figure_indices log).
        exact I4.
      * unfold saved_paths. cbn [flat_map snd app]. fold (saved_paths log).
        exact I5.
Qed.

Lemma counter_closed_form (n : nat) (c : Z) :
  counter_inv n c -> (1 <= c)%Z -> c = ((Z.of_nat n - 1) mod 5 + 1)%Z.
Proof.
  intros [E B] H.
  assert (E' : ((c - 1) mod 5 = (Z.of_nat n - 1) mod 5)%Z).
  { rewrite (Zminus_mod c 1 5), (Zminus_mod (Z.of_nat n) 1 5), E. reflexivity. }
  rewrite <- E'. rewrite Z.mod_small by lia. lia.
Qed.

(** X15: A run of [MAE_Scatter] numbers its figures 1, 2, 3, ... without a gap
    or a repeat, saves the model to the one file [model.keras] under the
    root path each time, and ends with [total_mae] the number of figures
    and, after [n >= 1] epochs, [cur_step = (n - 1) mod 5 + 1]. *)
Theorem MAE_Scatter_run_leaves (root_path s_type title : string)
  (steps_per_checkpoint : Z) (n : nat) :
  let r := MAE_Scatter_run
             (MAE_Scatter_init root_path s_type title steps_per_checkpoint) 0 n in
  let logs := length (logging_epochs (snd r)) in
  figure_indices (snd r) = map (fun i => Z.of_nat (S i)) (seq 0 logs) /\
  saved_paths (snd r) = repeat (os_path_join root_path "model.keras") logs /\
  ms_total_mae (fst r) = Z.of_nat logs /\
  ((0 < n)%nat -> ms_cur_step (fst r) = ((Z.of_nat n - 1) mod 5 + 1)%Z).
Proof.
  cbv zeta.
  set (self := MAE_Scatter_init root_path s_type title steps_per_checkpoint).
  rewrite (MAE_Scatter_run_logs n self 0 counter_inv_init).
  destruct (MAE_Scatter_run_files n self 0 counter_inv_init)
    as (I1 & I2 & I3 & I4 & I5).
  split; [|split; [|split]].
  - rewrite I4. unfold count_from. apply map_ext. intros i. simpl ms_total_mae. lia.
  - exact I5.
  - rewrite I3. reflexivity.
  - intros Hn. apply counter_closed_form; [exact I1 | apply I2; right; exact Hn].
Qed.

(** X15 at a run of seven epochs. *)
Lemma MAE_Scatter_run_leaves_witness :
  ms_cur_step (fst (MAE_Scatter_run (MAE_Scatter_init "out" "gut" "val" 3) 0 7))
  = ((Z.of_nat 7 - 1) mod 5 + 1)%Z.
Proof.
  apply (proj2 (proj2 (proj2 (MAE_Scatter_run_leaves "out" "gut" "val" 3 7)))).
  lia.
Defined.

Lemma every_nth_cons p k n :
  every_nth p k (S n) =
  if (Z.of_nat k mod p =? 0)%Z then k :: every_nth p (S k) n else every_nth p (S k) n.
Proof. unfold every_nth. simpl. now destruct (Z.of_nat k mod p =? 0)%Z. Qed.

Lemma period_inv_next (p : Z) (k : nat) (c : Z) :
  (0 < p)%Z -> period_inv p k c ->
  period_inv p (S k) ((if (c mod p =? 0)%Z then 0 else c) + 1)%Z.
Proof.
  intros Hp [E B]. unfold period_inv. rewrite Nat2Z.inj_succ. unfold Z.succ.
  rewrite (Z.add_mod (Z.of_nat k) 1 p), <- E by lia.
  destruct (Z.eqb_spec (c mod p) 0) as [H|H].
  - rewrite H. rewrite !Z.add_0_l, Z.mod_mod by lia. split; [reflexivity | lia].
  - rewrite <- Z.add_mod by lia. split; [reflexivity|].
    assert (c <> p)%Z by (intros ->; apply H, Z.mod_same; lia).
    assert (c <> 0)%Z by (intros ->; apply H, Z.mod_0_l; lia). lia.
Qed.

Lemma Accuracy_call (self : Accuracy) (epoch : Z) :
  ac_steps_per_checkpoint self <> 0%Z ->
  Accuracy_on_epoch_end self epoch =
  Ok (if (ac_cur_step self mod ac_steps_per_checkpoint self =? 0)%Z
      then (ac_set_cur_step 1 (ac_set_total_mae (ac_total_mae self + 1) self),
            [AccuracyModelSave (ac_model_path self);
             AccuracyPrc (ac_figure_path self) (ac_total_mae self + 1);
             AccuracyRoc (ac_figure_path self) (ac_total_mae self + 1)])
      else (ac_set_cur_step (ac_cur_step self + 1) self, [])).
Proof.
  intros Hp. unfold Accuracy_on_epoch_end, py_mod.
  destruct (Z.eqb_spec (ac_steps_per_checkpoint self) 0); [contradiction|]. simpl.
  destruct (ac_cur_step self mod ac_steps_per_checkpoint self =? 0)%Z; reflexivity.
Qed.

Lemma Accuracy_run_logs (p : Z) n : forall self k,
  (0 < p)%Z -> ac_steps_per_checkpoint self = p ->
  period_inv p k (ac_cur_step self) ->
  exists self' log, Accuracy_run self k n = Ok (self', log) /\
                    logging_epochs log = every_nth p k n.
Proof.
  induction n as [|n IH]; intros self k Hp Hs Hinv.
  - eexists _, _. split; reflexivity.
  - rewrite every_nth_cons. pose proof (period_inv_next p k _ Hp Hinv) as Hnext.
    destruct Hinv as [E _]. rewrite <- E.
    cbn [Accuracy_run]. rewrite Accuracy_call by lia. rewrite Hs.
    destruct (ac_cur_step self mod p =? 0)%Z.
    + destruct (IH (ac_set_cur_step 1 (ac_set_total_mae (ac_total_mae self + 1) self))
                   (S k) Hp Hs Hnext) as (s2 & log & E2 & HL).
      eexists _, _. simpl. simpl in E2. rewrite E2. simpl. split; [reflexivity|].
      unfold logging_epochs. simpl. fold (logging_epochs log). now rewrite HL.
    + destruct (IH (ac_set_cur_step (ac_cur_step self + 1) self)
                   (S k) Hp Hs Hnext) as (s2 & log & E2 & HL).
      eexists _, _. simpl. simpl in E2. rewrite E2. simpl. split; [reflexivity|].
      unfold logging_epochs. simpl. fold (logging_epochs log). exact HL.
Qed.

(** X16: [Accuracy] does use [steps_per_checkpoint]: with a positive value [p]
    it logs at the epochs [0, p, 2p, ...]; with 0 the first call raises
    [ZeroDivisionError]. *)
Theorem Accuracy_period (root_path s_type : string) (steps_per_checkpoint : Z)
  (n : nat) :
  let self := Accuracy_init root_path s_type steps_per_checkpoint in
  ((0 < steps_per_checkpoint)%Z ->
   exists self' log,
     Accuracy_run self 0 n = Ok (self', log) /\
     logging_epochs log = every_nth steps_per_checkpoint 0 n /\
     forall e, In e (logging_epochs log)
               <-> (e < n)%nat /\ (steps_per_checkpoint | Z.of_nat e)%Z) /\
  (steps_per_checkpoint = 0%Z ->
   Accuracy_run self 0 (S n) = Raise ZeroDivisionError).
Proof.
  cbv zeta. split.
  - intros Hp.
    destruct (Accuracy_run_logs steps_per_checkpoint n
                (Accuracy_init root_path s_type steps_per_checkpoint) 0 Hp eq_refl)
      as (s & log & E & HL).
    { split; [reflexivity | simpl; lia]. }
    exists s, log. split; [exact E|]. split; [exact HL|].
    intros e. rewrite HL. unfold every_nth. rewrite filter_In, in_seq, Z.eqb_eq.
    rewrite Z.mod_divide by lia. split; intros [? ?]; split; auto; lia.
  - intros ->. reflexivity.
Qed.

(** X16 at period 3 and seven epochs. *)
Lemma Accuracy_period_witness :
  exists self' log,
    Accuracy_run (Accuracy_init "out" "gut" 3) 0 7 = Ok (self', log) /\
    logging_epochs log = every_nth 3 0 7 /\
    forall e, In e (logging_epochs log) <-> (e < 7)%nat /\ (3 | Z.of_nat e)%Z.
Proof.
  apply (proj1 (Accuracy_period "out" "gut" 3 7)). lia.
Defined.

Section EncoderEdges.
Context {ordination : Type} (pcoa : distance_matrix -> nat -> ordination)
        (unweighted : string -> string -> distance_matrix)
        (dm_filter : distance_matrix -> list string -> distance_matrix).

(** X17: With [batch_size = 0] a call of [ProjectEncoder.on_epoch_end] that
    is due to log raises [ZeroDivisionError], and with it every run that
    starts at such a call: the first epoch of training already fails. *)
Theorem ProjectEncoder_zero_batch_size (self : ProjectEncoder) (epoch : Z)
  (w : world) :
  pe_batch_size self = 0%Z -> (pe_cur_step self mod 5 = 0)%Z ->
  ProjectEncoder_on_epoch_end pcoa unweighted dm_filter self epoch w
    = Raise ZeroDivisionError /\
  forall (worlds : nat -> world) (first_epoch n : nat),
    ProjectEncoder_run pcoa unweighted dm_filter self worlds first_epoch (S n)
    = Raise ZeroDivisionError.
Proof.
  intros Hb Hc.
  assert (E : forall e w', ProjectEncoder_on_epoch_end pcoa unweighted dm_filter
                             self e w' = Raise ZeroDivisionError).
  { intros e w'. unfold ProjectEncoder_on_epoch_end, _log_epoch_data,
      drawn_indices, total_samples_of. rewrite Hb, Hc. reflexivity. }
  split; [apply E|]. intros worlds k n. cbn [ProjectEncoder_run].
  rewrite E. reflexivity.
Qed.

End EncoderEdges.

(** X17 at a fresh callback. *)
Lemma ProjectEncoder_zero_batch_size_witness :
  ProjectEncoder_on_epoch_end (fun _ _ => tt) (fun _ _ => DistanceMatrix [] [])
    (fun m _ => m)
    (ProjectEncoder_init ["s1"; "s2"] "out" "p" "t" "table" "tree" 2 0 [])
    0 world0
  = Raise ZeroDivisionError.
Proof.
  apply (proj1 (ProjectEncoder_zero_batch_size (fun _ _ => tt)
                  (fun _ _ => DistanceMatrix [] []) (fun m _ => m)
                  (ProjectEncoder_init ["s1"; "s2"] "out" "p" "t" "table" "tree" 2 0 [])
                  0 world0 eq_refl eq_refl)).
Defined.

Lemma length_py_slice_stop {A : Type} (m : Z) (l : list A) :
  Z.of_nat (length (py_slice None (Some m) l)) =
  (if (m <? 0)%Z then Z.max (m + Z.of_nat (length l)) 0
   else Z.min m (Z.of_nat (length l)))%Z.
Proof.
  unfold py_slice, norm_index. change (Z.to_nat 0) with 0%nat.
  rewrite skipn_O, Z.sub_0_r, length_firstn.
  destruct (Z.ltb_spec m 0); lia.
Qed.

(** X18: The draw of [_log_epoch_data] for [batch_size > 0]: [num_samples]
    indices when there are that many, every index of the pool when
    [num_samples] is larger, and all but the last [-num_samples] of the
    shuffled pool when [num_samples] is negative. *)
Theorem drawn_indices_count (self : ProjectEncoder) (w : world) :
  (0 < pe_batch_size self)%Z ->
  (forall l, Permutation l (w_shuffle w l)) ->
  exists (total_samples : Z) (sample_indices : list nat),
    total_samples_of (Z.of_nat (length (pe_sample_ids self))) (pe_batch_size self)
      = Ok total_samples /\
    drawn_indices self w = Ok sample_indices /\
    Z.of_nat (length sample_indices) =
      (if (pe_num_samples self <? 0)%Z
       then Z.max (pe_num_samples self + total_samples) 0
       else Z.min (pe_num_samples self) total_samples)%Z /\
    ((total_samples <= pe_num_samples self)%Z ->
     Permutation (seq 0 (Z.to_nat total_samples)) sample_indices).
Proof.
  intros Hb Hperm.
  destruct (total_samples_of_multiple (Z.of_nat (length (pe_sample_ids self)))
              (pe_batch_size self) ltac:(lia) Hb) as (t & Et & _ & Ht0 & _).
  exists t, (py_slice None (Some (pe_num_samples self))
                      (w_shuffle w (seq 0 (Z.to_nat t)))).
  assert (Ls : length (w_shuffle w (seq 0 (Z.to_nat t))) = Z.to_nat t).
  { rewrite <- (Permutation_length (Hperm _)). apply length_seq. }
  split; [exact Et|]. split.
  { unfold drawn_indices. rewrite Et. reflexivity. }
  split.
  - rewrite length_py_slice_stop, Ls, Z2Nat.id by lia. reflexivity.
  - intros Hall. rewrite py_slice_prefix by lia.
    rewrite firstn_all2 by (rewrite Ls; lia). apply Hperm.
Qed.

(** X18 at three samples, batches of two and a shuffle that reverses. *)
Lemma drawn_indices_count_witness :
  exists (total_samples : Z) (sample_indices : list nat),
    total_samples_of (Z.of_nat (length (pe_sample_ids encoder0)))
                     (pe_batch_size encoder0) = Ok total_samples /\
    drawn_indices encoder0 world0 = Ok sample_indices /\
    Z.of_nat (length sample_indices) =
      (if (pe_num_samples encoder0 <? 0)%Z
       then Z.max (pe_num_samples encoder0 + total_samples) 0
       else Z.min (pe_num_samples encoder0) total_samples)%Z /\
    ((total_samples <= pe_num_samples encoder0)%Z ->
     Permutation (seq 0 (Z.to_nat total_samples)) sample_indices).
Proof.
  apply (drawn_indices_count encoder0 world0);
    [reflexivity | intros l; apply Permutation_rev].
Defined.

End CallbackRunFacts.

(** ** The split of [unifrac] at its edges *)
Module SplitFacts.
Import Py PyFacts TransferLearning TransferLearningFacts.

Lemma train_size_ok (size : Z) (tp : Q) (bs : Z) :
  bs <> 0%Z ->
  train_size size tp bs
  = Ok (py_int (inject_Z size * tp / inject_Z bs) * bs)%Z.
Proof.
  intros H. unfold train_size. destruct (Z.eqb_spec bs 0); [contradiction | reflexivity].
Qed.

(** X19: Whatever [train_percent] is, for [batch_size <> 0] the training and
    validation elements are a prefix and the remaining suffix of the
    dataset: no element is lost and none is in both. *)
Theorem unifrac_split_partitions {A : Type} (dataset : list A)
  (train_percent : Q) (batch_size : Z) :
  batch_size <> 0%Z ->
  exists training validation,
    unifrac_split dataset train_percent batch_size = Ok (training, validation) /\
    training ++ validation = dataset /\
    (length training + length validation = length dataset)%nat.
Proof.
  intros Hb. unfold unifrac_split. rewrite train_size_ok by assumption.
  eexists _, _. split; [reflexivity|].
  pose proof (ds_take_skip (py_int (inject_Z (Z.of_nat (length dataset))
                                    * train_percent / inject_Z batch_size)
                            * batch_size)%Z dataset) as E.
  split; [exact E|]. pose proof (f_equal length E) as L.
  rewrite length_app in L. exact L.
Qed.

(** X19 at five elements and [train_percent = 1.5]. *)
Lemma unifrac_split_partitions_witness :
  exists training validation,
    unifrac_split [1; 2; 3; 4; 5]%nat (3 # 2) 2 = Ok (training, validation) /\
    training ++ validation = [1; 2; 3; 4; 5]%nat /\
    (length training + length validation = 5)%nat.
Proof.
  apply (unifrac_split_partitions [1; 2; 3; 4; 5]%nat (3 # 2) 2). discriminate.
Defined.




(** X21: With [train_percent = 1] the training set holds the largest multiple
    of [batch_size] and the validation set the [size mod batch_size]
    elements left over, fewer than one batch. *)
Theorem unifrac_split_all {A : Type} (dataset : list A) (batch_size : Z) :
  (0 < batch_size)%Z ->
  let size := Z.of_nat (length dataset) in
  exists training validation,
    unifrac_split dataset 1 batch_size = Ok (training, validation) /\
    Z.of_nat (length training) = (size - size mod batch_size)%Z /\
    Z.of_nat (length validation) = (size mod batch_size)%Z /\
    (Z.of_nat (length validation) < batch_size)%Z.
Proof.
  intros Hb size. unfold unifrac_split. fold size. rewrite train_size_ok by lia.
  assert (F : py_int (inject_Z size * 1 / inject_Z batch_size) = (size / batch_size)%Z).
  { destruct batch_size as [|p|p]; try lia.
    unfold py_int, Qdiv, Qinv, inject_Z, Qmult. simpl.
    rewrite !Z.mul_1_r. apply Z.quot_div_nonneg; lia. }
  rewrite F.
  pose proof (Z.div_mod size batch_size ltac:(lia)) as E.
  pose proof (Z.mod_pos_bound size batch_size Hb) as B.
  pose proof (Z.div_pos size batch_size ltac:(lia) Hb) as P.
  set (ts := (size / batch_size * batch_size)%Z).
  assert (Ts : (0 <= ts <= size)%Z) by (unfold ts; nia).
  eexists _, _. split; [reflexivity|]. unfold ds_take, ds_skip.
  destruct (Z.ltb_spec ts 0); [lia|].
  rewrite length_firstn, length_skipn. fold size in E. unfold ts in *. lia.
Qed.

(** X21 at five elements and batches of two. *)
Lemma unifrac_split_all_witness :
  exists training validation,
    unifrac_split [1; 2; 3; 4; 5]%nat 1 2 = Ok (training, validation) /\
    Z.of_nat (length training) = (5 - 5 mod 2)%Z /\
    Z.of_nat (length validation) = (5 mod 2)%Z /\
    (Z.of_nat (length validation) < 2)%Z.
Proof.
  apply (unifrac_split_all [1; 2; 3; 4; 5]%nat 2). lia.
Defined.

End SplitFacts.

(** ** The order of the command-line options *)
Module CliUtilFacts.
Import CliUtil.

(** X22: [aam_model_options] stacks the thirteen options on [func] in the
    order of the list, [--batch-size] outermost and [--lr] innermost;
    where calling an option appends it to the parameters of the function
    (click's memo), the parameters gain the options in reverse order. *)
Theorem aam_model_options_order {F : Type} (decorate : click_option -> F -> F)
  (func : F) (params : list click_option) :
  aam_model_options decorate func = fold_right decorate func model_options /\
  aam_model_options (fun o ps => ps ++ [o]) params = params ++ rev model_options.
Proof.
  unfold aam_model_options. split.
  - rewrite <- (fold_left_rev_right decorate (rev model_options) func).
    now rewrite rev_involutive.
  - generalize (rev model_options). intros l. revert params.
    induction l as [|o l IH]; intros params; simpl.
    + now rewrite app_nil_r.
    + rewrite IH, <- app_assoc. reflexivity.
Qed.

End CliUtilFacts.
